(** * Shared MCP connection pool (src/src/connections.py)

    A shallow embedding of [SharedConnection] and [MCPConnectionPool].
    Python dicts are stdpp [gmap]s keyed by [string]; exceptions are the
    left injection of a small state/exception monad [PyM]; the external
    MCP capabilities (spawning a stdio transport, entering the session,
    [initialize], [list_tools], [call_tool]) are an oracle [World]. *)

From Stdlib Require Import ZArith Lia.
From stdpp Require Import base gmap strings list.

(** ** Data model *)

Inductive TransportType := STDIO | SSE | STREAMABLE_HTTP.

Record MCPServerConfig := mkConfig {
  name : string;
  command : string;
  args : list string;
  env : list (string * string);
  transport : TransportType;
  url : option string
}.

(** A [ClientSession] is an opaque handle. *)
Definition ClientSession := nat.

(** [SharedConnection]: the dataclass fields [config], [session],
    [_ref_count] and [_connected]. Its [_lock] is only ever held inside
    [acquire]/[release], which never suspend while holding it, and
    [_cleanup_callback] is never set, so neither is represented. *)
Record SharedConnection := mkConn {
  config : MCPServerConfig;
  session : option ClientSession;
  ref_count : Z;
  connected : bool
}.

(** The values stored in [_context_managers]: the [stdio_client] context
    manager under key [name], the [ClientSession] one under
    [name ++ "_session"]. *)
Inductive ContextManager := TransportCM (n : string) | SessionCM (n : string).

(** [MCPConnectionPool] state. [_cleanup_tasks] is only ever cleared and
    [_max_idle_time] never read, so neither is represented; the pool
    [_lock] appears in the interleaving semantics below. *)
Record MCPConnectionPool := mkPool {
  connections : gmap string SharedConnection;
  configs : gmap string MCPServerConfig;
  running : bool;
  context_managers : gmap string ContextManager
}.

Definition new_pool : MCPConnectionPool := mkPool ∅ ∅ false ∅.

(** Exceptions raised by the module (all subclasses of [Exception]). *)
Inductive PyExn :=
| AlreadyConfigured (n : string)      (* ValueError *)
| ServerNotFound (n : string)         (* ValueError *)
| HasActiveConnections (n : string)   (* ValueError *)
| NotConfigured (n : string)          (* ValueError *)
| PoolNotRunning                      (* RuntimeError *)
| NotInitialized (n : string)         (* RuntimeError *)
| NotImplemented (t : TransportType)  (* NotImplementedError *)
| KeyError (n : string)               (* KeyError on self._configs[name] *)
| SpawnError (n : string)             (* raised by stdio_client.__aenter__ *)
| SessionError (n : string)           (* raised by ClientSession.__aenter__ *)
| InitializeError (n : string)        (* raised by session.initialize() *)
| ToolError (n : string).             (* raised by list_tools / call_tool *)

(** What the external capabilities do when the pool connects to a server. *)
Inductive CreateOutcome :=
| SpawnFails
| SessionEnterFails
| InitializeFails
| Connects (s : ClientSession).

Record World := mkWorld {
  w_create : string -> CreateOutcome;
  w_list_tools : string -> option (list string);
  w_call_tool : string -> string -> option string
}.

(** ** A state/exception monad *)

Definition PyM (A : Type) := MCPConnectionPool -> MCPConnectionPool * (PyExn + A).

Definition ret {A} (a : A) : PyM A := fun p => (p, inr a).
Definition raise {A} (e : PyExn) : PyM A := fun p => (p, inl e).
Definition bind {A B} (m : PyM A) (k : A -> PyM B) : PyM B :=
  fun p => match m p with
           | (p', inl e) => (p', inl e)
           | (p', inr a) => k a p'
           end.
Definition get_pool : PyM MCPConnectionPool := fun p => (p, inr p).
Definition put_pool (q : MCPConnectionPool) : PyM unit := fun _ => (q, inr tt).
(** [try: m except Exception as e: h e] *)
Definition try_except {A} (m : PyM A) (h : PyExn -> PyM A) : PyM A :=
  fun p => match m p with
           | (p', inl e) => h e p'
           | (p', inr a) => (p', inr a)
           end.

Notation "'let!' x ':=' m 'in' k" := (bind m (fun x => k))
  (at level 200, x name, m at level 100, k at level 200).

Definition set_connections (cs : gmap string SharedConnection) (p : MCPConnectionPool) :=
  mkPool cs (configs p) (running p) (context_managers p).
Definition set_configs (cf : gmap string MCPServerConfig) (p : MCPConnectionPool) :=
  mkPool (connections p) cf (running p) (context_managers p).
Definition set_running (b : bool) (p : MCPConnectionPool) :=
  mkPool (connections p) (configs p) b (context_managers p).
Definition set_cms (cm : gmap string ContextManager) (p : MCPConnectionPool) :=
  mkPool (connections p) (configs p) (running p) cm.

(** ** SharedConnection *)

Definition is_connected (c : SharedConnection) : bool :=
  connected c && bool_decide (is_Some (session c)).

(** [acquire]: [self._ref_count += 1], then raise if [session is None]. *)
Definition acquire (c : SharedConnection) : SharedConnection * (PyExn + ClientSession) :=
  let c' := mkConn (config c) (session c) (ref_count c + 1)%Z (connected c) in
  match session c' with
  | None => (c', inl (NotInitialized (name (config c))))
  | Some s => (c', inr s)
  end.

(** [release]: [self._ref_count = max(0, self._ref_count - 1)]. *)
Definition release (c : SharedConnection) : SharedConnection * Z :=
  let r := Z.max 0 (ref_count c - 1) in
  (mkConn (config c) (session c) r (connected c), r).

(** ** MCPConnectionPool, sequential semantics *)

Definition add_server (cfg : MCPServerConfig) : PyM unit :=
  let! p := get_pool in
  match configs p !! name cfg with
  | Some _ => raise (AlreadyConfigured (name cfg))
  | None => put_pool (set_configs (<[name cfg := cfg]> (configs p)) p)
  end.

Definition remove_server (n : string) : PyM unit :=
  let! p := get_pool in
  match configs p !! n with
  | None => raise (ServerNotFound n)
  | Some _ =>
      match connections p !! n with
      | Some c => if bool_decide (0 < ref_count c)%Z
                  then raise (HasActiveConnections n)
                  else put_pool (mkPool (delete n (connections p)) (delete n (configs p))
                                        (running p) (context_managers p))
      | None => put_pool (mkPool (delete n (connections p)) (delete n (configs p))
                                 (running p) (context_managers p))
      end
  end.

Definition session_key (n : string) : string := String.append n "_session".

Definition _create_connection (w : World) (n : string) : PyM SharedConnection :=
  let! p := get_pool in
  match configs p !! n with
  | None => raise (KeyError n)
  | Some cfg =>
      match transport cfg with
      | STDIO =>
          match w_create w n with
          | SpawnFails => raise (SpawnError n)
          | SessionEnterFails =>
              let! _ := put_pool (set_cms (<[n := TransportCM n]> (context_managers p)) p) in
              raise (SessionError n)
          | InitializeFails =>
              let! _ := put_pool (set_cms (<[session_key n := SessionCM n]>
                                   (<[n := TransportCM n]> (context_managers p))) p) in
              raise (InitializeError n)
          | Connects s =>
              let! _ := put_pool (set_cms (<[session_key n := SessionCM n]>
                                   (<[n := TransportCM n]> (context_managers p))) p) in
              ret (mkConn cfg (Some s) 0 true)
          end
      | t => raise (NotImplemented t)
      end
  end.

(** [self._connections[name] = await self._create_connection(name)] *)
Definition create_and_store (w : World) (n : string) : PyM SharedConnection :=
  let! c := _create_connection w n in
  let! q := get_pool in
  let! _ := put_pool (set_connections (<[n := c]> (connections q)) q) in
  ret c.

(** [get_session] as a context manager around [body], the code run with
    the session; here [body] is one external call on the session, which
    does not touch the pool, so the connection object that is released is
    the entry of [_connections] it was acquired from. *)
Definition get_session {A} (w : World) (n : string) (body : ClientSession -> PyExn + A) : PyM A :=
  let! p := get_pool in
  if negb (running p) then raise PoolNotRunning else
  match configs p !! n with
  | None => raise (NotConfigured n)
  | Some _ =>
      let! c := (match connections p !! n with
                 | Some c => if is_connected c then ret c else create_and_store w n
                 | None => create_and_store w n
                 end) in
      let! q := get_pool in
      let '(c', r) := acquire c in
      let! _ := put_pool (set_connections (<[n := c']> (connections q)) q) in
      match r with
      | inl e => raise e
      | inr s =>
          (* try: yield session  finally: release *)
          let res := body s in
          let! q' := get_pool in
          let! _ := put_pool (set_connections (<[n := (release c').1]> (connections q')) q') in
          match res with inl e => raise e | inr a => ret a end
      end
  end.

(** [get_all_tools]: the loop over the configured names; a failure of one
    server is caught and recorded as []. Python iterates [self._configs] in
    insertion order; here the order of [map_to_list], which does not change
    the result since each name is handled by its own entries. *)
Definition list_tools_body (w : World) (n : string) (_ : ClientSession) : PyExn + list string :=
  match w_list_tools w n with Some ts => inr ts | None => inl (ToolError n) end.

Fixpoint get_all_tools_loop (w : World) (ns : list string) (tools : gmap string (list string))
  : PyM (gmap string (list string)) :=
  match ns with
  | [] => ret tools
  | n :: ns' =>
      let! ts := try_except (get_session w n (list_tools_body w n)) (fun _ => ret []) in
      get_all_tools_loop w ns' (<[n := ts]> tools)
  end.

Definition get_all_tools (w : World) : PyM (gmap string (list string)) :=
  let! p := get_pool in
  get_all_tools_loop w (map_to_list (configs p)).*1 ∅.

Definition call_tool (w : World) (server_name tool_name : string) : PyM string :=
  get_session w server_name
    (fun _ => match w_call_tool w server_name tool_name with
              | Some r => inr r
              | None => inl (ToolError server_name)
              end).

Definition start : PyM unit :=
  let! p := get_pool in put_pool (set_running true p).

(** [_close_connection]: teardown errors are logged and swallowed, so only
    the bookkeeping remains. *)
Definition _close_connection (n : string) (p : MCPConnectionPool) : MCPConnectionPool :=
  match connections p !! n with
  | None => p
  | Some _ => mkPool (delete n (connections p)) (configs p) (running p)
                     (delete n (delete (session_key n) (context_managers p)))
  end.

Definition stop : PyM unit :=
  let! p := get_pool in
  put_pool (foldl (fun q n => _close_connection n q) (set_running false p)
                  (map_to_list (connections p)).*1).

(** ** Interleaving semantics of concurrent [get_session] callers

    The pool is driven by cooperative asyncio tasks. A task running
    [get_session(name)] is suspended only where it awaits: while waiting
    for the pool [_lock] when another task holds it, and inside
    [_create_connection] (spawning the transport, entering the session,
    [initialize]). Everything between two suspension points runs
    atomically: the running/config checks; taking the free lock, the
    connection check, reading [self._configs[name]] and starting the spawn;
    and, once [initialize] returns, storing the connection, releasing the
    lock and [connection.acquire()] (the per-connection lock is free, so it
    does not suspend). The three awaits of [_create_connection] are merged
    into one suspended state [GS_Creating]; while it lasts the creating task
    holds the pool lock. [g_spawns] and [g_inits] count the calls to
    [stdio_client(...).__aenter__] and to [session.initialize()]. *)

Inductive gs_pc :=
| GS_Start
| GS_WaitLock
| GS_Creating (cfg : MCPServerConfig)
| GS_Acquired (s : ClientSession)
| GS_Failed (e : PyExn).

Record Task := mkTask { t_name : string; t_pc : gs_pc }.

Record Glob := mkGlob {
  g_pool : MCPConnectionPool;
  g_locked : bool;
  g_spawns : nat;
  g_inits : nat
}.

Record Sys := mkSys { s_glob : Glob; s_tasks : list Task }.

(** [connection = self._connections[name]], lock released,
    [session = await connection.acquire()]. *)
Definition acquire_step (n : string) (c : SharedConnection) (g : Glob) : Glob * gs_pc :=
  let p := g_pool g in
  let '(c', r) := acquire c in
  (mkGlob (set_connections (<[n := c']> (connections p)) p) false (g_spawns g) (g_inits g),
   match r with inl e => GS_Failed e | inr s => GS_Acquired s end).

(** Lock taken, no live connection: [_create_connection] up to its first await. *)
Definition start_create (n : string) (g : Glob) : Glob * gs_pc :=
  let p := g_pool g in
  match configs p !! n with
  | None => (g, GS_Failed (KeyError n))
  | Some cfg =>
      match transport cfg with
      | STDIO => (mkGlob p true (S (g_spawns g)) (g_inits g), GS_Creating cfg)
      | t => (g, GS_Failed (NotImplemented t))
      end
  end.

(** The rest of [_create_connection], the store into [_connections], the
    release of the lock (also on an exception) and [acquire]. *)
Definition finish_create (w : World) (n : string) (cfg : MCPServerConfig) (g : Glob)
  : Glob * gs_pc :=
  let p := g_pool g in
  let cms2 := <[session_key n := SessionCM n]> (<[n := TransportCM n]> (context_managers p)) in
  match w_create w n with
  | SpawnFails => (mkGlob p false (g_spawns g) (g_inits g), GS_Failed (SpawnError n))
  | SessionEnterFails =>
      (mkGlob (set_cms (<[n := TransportCM n]> (context_managers p)) p) false
              (g_spawns g) (g_inits g), GS_Failed (SessionError n))
  | InitializeFails =>
      (mkGlob (set_cms cms2 p) false (g_spawns g) (S (g_inits g)), GS_Failed (InitializeError n))
  | Connects s =>
      let c := mkConn cfg (Some s) 0 true in
      let p1 := set_cms cms2 p in
      acquire_step n c (mkGlob (set_connections (<[n := c]> (connections p1)) p1) false
                               (g_spawns g) (S (g_inits g)))
  end.

(** One atomic slice of a [get_session(n)] task; [None] when it is blocked
    on the pool lock or has finished. *)
Definition gs_step (w : World) (n : string) (g : Glob) (pc : gs_pc) : option (Glob * gs_pc) :=
  let p := g_pool g in
  match pc with
  | GS_Start =>
      if negb (running p) then Some (g, GS_Failed PoolNotRunning) else
      match configs p !! n with
      | None => Some (g, GS_Failed (NotConfigured n))
      | Some _ => Some (g, GS_WaitLock)
      end
  | GS_WaitLock =>
      if g_locked g then None else
      match connections p !! n with
      | Some c => if is_connected c then Some (acquire_step n c g) else Some (start_create n g)
      | None => Some (start_create n g)
      end
  | GS_Creating cfg => Some (finish_create w n cfg g)
  | GS_Acquired _ | GS_Failed _ => None
  end.

Inductive task_step (w : World) : Sys -> Sys -> Prop :=
| TaskStep s i t g' pc' :
    s_tasks s !! i = Some t ->
    gs_step w (t_name t) (s_glob s) (t_pc t) = Some (g', pc') ->
    task_step w s (mkSys g' (<[i := mkTask (t_name t) pc']> (s_tasks s))).

Definition with_pool (p : MCPConnectionPool) (g : Glob) : Glob :=
  mkGlob p (g_locked g) (g_spawns g) (g_inits g).

(** The synchronous methods [add_server] and [remove_server], called from
    another task, run atomically between two suspension points; they do not
    take the pool lock. *)
Inductive env_step : Sys -> Sys -> Prop :=
| EnvRemoveServer s n :
    env_step s (mkSys (with_pool (remove_server n (g_pool (s_glob s))).1 (s_glob s)) (s_tasks s))
| EnvAddServer s cfg :
    env_step s (mkSys (with_pool (add_server cfg (g_pool (s_glob s))).1 (s_glob s)) (s_tasks s)).

Definition sys_step (w : World) (s s' : Sys) : Prop := task_step w s s' \/ env_step s s'.

Definition terminal (w : World) (s : Sys) : Prop := ~ exists s', task_step w s s'.

(** [N] tasks calling [get_session(n)] on pool [p] with the lock free. *)
Definition callers (p : MCPConnectionPool) (n : string) (N : nat) : Sys :=
  mkSys (mkGlob p false 0 0) (replicate N (mkTask n GS_Start)).

(** Bookkeeping used in the proofs. *)
Fixpoint count_tasks (f : gs_pc -> bool) (l : list Task) : nat :=
  match l with
  | [] => 0
  | t :: l' => (if f (t_pc t) then 1 else 0) + count_tasks f l'
  end.

Definition is_creating (pc : gs_pc) : bool := match pc with GS_Creating _ => true | _ => false end.
Definition is_acquired (pc : gs_pc) : bool := match pc with GS_Acquired _ => true | _ => false end.

Definition pc_weight (pc : gs_pc) : nat :=
  match pc with
  | GS_Start => 3 | GS_WaitLock => 2 | GS_Creating _ => 1
  | GS_Acquired _ | GS_Failed _ => 0
  end.

Fixpoint tasks_weight (l : list Task) : nat :=
  match l with [] => 0 | t :: l' => pc_weight (t_pc t) + tasks_weight l' end.

(** Sequences of [SharedConnection] operations. *)
Fixpoint acquire_n (k : nat) (c : SharedConnection) : SharedConnection :=
  match k with O => c | S k' => acquire_n k' (acquire c).1 end.
Fixpoint release_n (k : nat) (c : SharedConnection) : SharedConnection :=
  match k with O => c | S k' => release_n k' (release c).1 end.

Inductive ConnOp := OpAcquire | OpRelease.
Fixpoint run_conn_ops (ops : list ConnOp) (c : SharedConnection) : SharedConnection :=
  match ops with
  | [] => c
  | OpAcquire :: ops' => run_conn_ops ops' (acquire c).1
  | OpRelease :: ops' => run_conn_ops ops' (release c).1
  end.

(** A sequence of [add_server] calls, each one's [ValueError] caught by the caller. *)
Fixpoint add_servers (cfgs : list MCPServerConfig) : PyM unit :=
  match cfgs with
  | [] => ret tt
  | cfg :: cfgs' => let! _ := try_except (add_server cfg) (fun _ => ret tt) in add_servers cfgs'
  end.

(** What [get_session(n)] with [list_tools] yields on its own: the tool
    list, or [] when it raises. *)
Definition tools_outcome (w : World) (p : MCPConnectionPool) (n : string) : list string :=
  match (get_session w n (list_tools_body w n) p).2 with
  | inl _ => []
  | inr ts => ts
  end.

(** Every key of [_connections] is a key of [_configs]. *)
Definition conn_keys_ok (p : MCPConnectionPool) : Prop :=
  forall k, is_Some (connections p !! k) -> is_Some (configs p !! k).

(** The invariant of [N] callers of [get_session(n)] while no other task
    touches the pool: before the connection exists at most one task is
    creating it, and it holds the lock; afterwards the stored connection is
    live and its reference count is the number of tasks that acquired it. *)
Definition pc_ok (cfg : MCPServerConfig) (sid : ClientSession) (pc : gs_pc) : Prop :=
  match pc with
  | GS_Start | GS_WaitLock => True
  | GS_Creating c => c = cfg
  | GS_Acquired s => s = sid
  | GS_Failed _ => False
  end.

Definition callers_inv (n : string) (cfg : MCPServerConfig) (sid : ClientSession) (N : nat)
    (s : Sys) : Prop :=
  let g := s_glob s in
  let p := g_pool g in
  length (s_tasks s) = N /\
  Forall (fun t => t_name t = n /\ pc_ok cfg sid (t_pc t)) (s_tasks s) /\
  running p = true /\
  configs p !! n = Some cfg /\
  (((forall c, connections p !! n = Some c -> is_connected c = false) /\
    count_tasks is_acquired (s_tasks s) = 0 /\
    count_tasks is_creating (s_tasks s) = g_spawns g /\
    g_spawns g <= 1 /\
    g_locked g = bool_decide (g_spawns g = 1) /\
    g_inits g = 0)
   \/
   (connections p !! n =
      Some (mkConn cfg (Some sid) (Z.of_nat (count_tasks is_acquired (s_tasks s))) true) /\
    count_tasks is_creating (s_tasks s) = 0 /\
    g_spawns g = 1 /\ g_inits g = 1 /\ g_locked g = false)).

(** The invariant of [N] callers of [get_session(n)] when spawning the
    transport fails: the pool never changes, at most one task is spawning
    and it holds the lock, and each spawn so far belongs to the task that is
    spawning or to one that has failed with that error. *)
Definition is_failed (pc : gs_pc) : bool := match pc with GS_Failed _ => true | _ => false end.

Definition pc_spawnfail_ok (n : string) (cfg : MCPServerConfig) (pc : gs_pc) : Prop :=
  match pc with
  | GS_Start | GS_WaitLock => True
  | GS_Creating c => c = cfg
  | GS_Acquired _ => False
  | GS_Failed e => e = SpawnError n
  end.

Definition spawnfail_inv (p : MCPConnectionPool) (n : string) (cfg : MCPServerConfig) (N : nat)
    (s : Sys) : Prop :=
  let g := s_glob s in
  length (s_tasks s) = N /\
  Forall (fun t => t_name t = n /\ pc_spawnfail_ok n cfg (t_pc t)) (s_tasks s) /\
  g_pool g = p /\
  count_tasks is_creating (s_tasks s) <= 1 /\
  g_locked g = bool_decide (count_tasks is_creating (s_tasks s) = 1) /\
  g_spawns g = count_tasks is_creating (s_tasks s) + count_tasks is_failed (s_tasks s) /\
  g_inits g = 0.

(** [active_connections]: the number of stored connections that are live. *)
Definition active_connections (p : MCPConnectionPool) : nat :=
  length (filter (fun kc : string * SharedConnection => is_connected kc.2 = true)
                 (map_to_list (connections p))).

(** Between operations no scope is open: every stored connection is live
    and holds no reference. *)
Definition pool_idle (p : MCPConnectionPool) : Prop :=
  forall k c, connections p !! k = Some c -> ref_count c = 0%Z /\ is_connected c = true.

(** ** Server wrappers and registry (src/src/servers/__init__.py)

    A wrapper's and a registry's [pool] property resolves to one pool
    object ([self._pool or get_global_pool()]); that pool is the state of
    [PyM]. *)

(** The exceptions that are [ValueError]s. *)
Definition is_value_error (e : PyExn) : bool :=
  match e with
  | AlreadyConfigured _ | ServerNotFound _ | HasActiveConnections _ | NotConfigured _ => true
  | _ => false
  end.

Record MCPServerWrapper := mkWrapper { wr_config : MCPServerConfig; wr_registered : bool }.

Definition register (wr : MCPServerWrapper) : PyM MCPServerWrapper :=
  if wr_registered wr then ret wr else
  let! _ := add_server (wr_config wr) in
  ret (mkWrapper (wr_config wr) true).

(** [unregister]: a [ValueError] from [remove_server] is swallowed. *)
Definition unregister (wr : MCPServerWrapper) : PyM MCPServerWrapper :=
  if negb (wr_registered wr) then ret wr else
  let! _ := try_except (remove_server (name (wr_config wr)))
                       (fun e => if is_value_error e then ret tt else raise e) in
  ret (mkWrapper (wr_config wr) false).

Record MCPServerRegistry := mkRegistry { reg_servers : gmap string MCPServerWrapper }.

(** [add]: the registry's dict is updated only once [register] returned. *)
Definition registry_add (cfg : MCPServerConfig) (r : MCPServerRegistry)
  : PyM (MCPServerRegistry * MCPServerWrapper) :=
  let! wr := register (mkWrapper cfg false) in
  ret (mkRegistry (<[name cfg := wr]> (reg_servers r)), wr).

Definition registry_get (n : string) (r : MCPServerRegistry) : PyExn + MCPServerWrapper :=
  match reg_servers r !! n with
  | None => inl (KeyError n)
  | Some wr => inr wr
  end.

Definition registry_remove (n : string) (r : MCPServerRegistry) : PyM MCPServerRegistry :=
  match reg_servers r !! n with
  | None => ret r
  | Some wr => let! _ := unregister wr in ret (mkRegistry (delete n (reg_servers r)))
  end.

(** ** AgentManager (src/src/manager.py) *)

Record AgentManager := mkManager { m_registry : MCPServerRegistry; m_running : bool }.



Definition manager_add_server (cfg : MCPServerConfig) (m : AgentManager)
  : PyM (AgentManager * MCPServerWrapper) :=
  let! rw := registry_add cfg (m_registry m) in
  ret (mkManager rw.1 (m_running m), rw.2).

Definition manager_remove_server (n : string) (m : AgentManager) : PyM AgentManager :=
  let! r := registry_remove n (m_registry m) in ret (mkManager r (m_running m)).

(** ** Concrete inputs *)

Definition echo_cfg : MCPServerConfig :=
  mkConfig "echo" "echo-server" [] [] STDIO None.
Definition sse_cfg : MCPServerConfig :=
  mkConfig "remote" "unused" [] [] SSE (Some "http://localhost:8000/sse").

Definition ok_world : World :=
  mkWorld (fun _ => Connects 7) (fun _ => Some ["echo_tool"]) (fun _ _ => Some "ok").
Definition init_fail_world : World :=
  mkWorld (fun _ => InitializeFails) (fun _ => Some ["echo_tool"]) (fun _ _ => Some "ok").

Definition echo_pool : MCPConnectionPool :=
  mkPool ∅ {[ "echo" := echo_cfg ]} true ∅.

Example echo_session_ok :
  (get_session ok_world "echo" (list_tools_body ok_world "echo") echo_pool).2 = inr ["echo_tool"].
Proof. vm_compute. reflexivity. Qed.

(** ** SharedConnection: reference counting *)

Lemma ref_count_acquire (c : SharedConnection) :
  ref_count (acquire c).1 = (ref_count c + 1)%Z.
Proof. unfold acquire. destruct (session c); reflexivity. Qed.

Lemma ref_count_acquire_n (k : nat) (c : SharedConnection) :
  ref_count (acquire_n k c) = (ref_count c + Z.of_nat k)%Z.
Proof.
  revert c. induction k as [|k IH]; intros c; simpl.
  - lia.
  - rewrite IH, ref_count_acquire. lia.
Qed.

Lemma ref_count_release_n (k : nat) (c : SharedConnection) :
  (0 <= ref_count c)%Z ->
  ref_count (release_n k c) = Z.max 0 (ref_count c - Z.of_nat k).
Proof.
  revert c. induction k as [|k IH]; intros c Hc; simpl.
  - lia.
  - rewrite IH by (simpl; lia). simpl. lia.
Qed.

Lemma run_conn_ops_nonneg (ops : list ConnOp) (c : SharedConnection) :
  (0 <= ref_count c)%Z -> (0 <= ref_count (run_conn_ops ops c))%Z.
Proof.
  revert c. induction ops as [|[|] ops IH]; intros c Hc; simpl.
  - exact Hc.
  - apply IH. rewrite ref_count_acquire. lia.
  - apply IH. simpl. lia.
Qed.

(** C3: starting from an idle connection (reference count 0, as every
    [SharedConnection] is created), [N] acquires followed by [N] releases
    give back a reference count of 0; a release at 0 leaves it at 0; and
    no sequence of acquires and releases makes it negative. *)
Theorem ref_count_balanced (c : SharedConnection) (N : nat) (ops : list ConnOp) :
  ref_count c = 0%Z ->
  ref_count (release_n N (acquire_n N c)) = 0%Z /\
  ref_count (release c).1 = 0%Z /\
  (0 <= ref_count (run_conn_ops ops c))%Z.
Proof.
  intros H0. split; [|split].
  - rewrite ref_count_release_n; rewrite ref_count_acquire_n; lia.
  - simpl. rewrite H0. reflexivity.
  - apply run_conn_ops_nonneg. lia.
Qed.

Lemma ref_count_balanced_witness :
  ref_count (release_n 3 (acquire_n 3 (mkConn echo_cfg (Some 7%nat) 0 true))) = 0%Z /\
  ref_count (release (mkConn echo_cfg (Some 7%nat) 0 true)).1 = 0%Z /\
  (0 <= ref_count (run_conn_ops [OpRelease; OpAcquire; OpRelease; OpRelease]
                                (mkConn echo_cfg (Some 7%nat) 0 true)))%Z.
Proof. apply (ref_count_balanced _ 3 _). reflexivity. Defined.

(** C10: [acquire] on a connection without a session raises "not
    initialized" after incrementing the reference count. *)
Theorem acquire_uninitialized_increments (c : SharedConnection) :
  session c = None ->
  acquire c = (mkConn (config c) None (ref_count c + 1)%Z (connected c),
               inl (NotInitialized (name (config c)))).
Proof. intros H. unfold acquire. simpl. rewrite H. reflexivity. Qed.

Lemma acquire_uninitialized_increments_witness :
  acquire (mkConn echo_cfg None 2 false) =
  (mkConn echo_cfg None 3 false, inl (NotInitialized "echo")).
Proof. apply (acquire_uninitialized_increments (mkConn echo_cfg None 2 false)). reflexivity. Defined.

(** ** Pool configuration bookkeeping *)

(** C4: [remove_server(n)] raises "not found" when [n] is not configured,
    raises "has active connections" and changes nothing when the existing
    connection of [n] has a positive reference count, and otherwise drops
    the config and any connection entry of [n] and leaves the context
    managers, so the transport is not closed. *)
Theorem remove_server_spec (p : MCPConnectionPool) (n : string) :
  (configs p !! n = None -> remove_server n p = (p, inl (ServerNotFound n))) /\
  (forall c, is_Some (configs p !! n) -> connections p !! n = Some c -> (0 < ref_count c)%Z ->
     remove_server n p = (p, inl (HasActiveConnections n))) /\
  (is_Some (configs p !! n) -> (forall c, connections p !! n = Some c -> ref_count c <= 0)%Z ->
     remove_server n p =
       (mkPool (delete n (connections p)) (delete n (configs p)) (running p) (context_managers p),
        inr tt)).
Proof.
  unfold remove_server, bind, get_pool, raise, put_pool. simpl.
  split; [|split].
  - intros H. rewrite H. reflexivity.
  - intros c [cfg Hcfg] Hc Hpos. rewrite Hcfg, Hc.
    rewrite bool_decide_eq_true_2 by exact Hpos. reflexivity.
  - intros [cfg Hcfg] Hle. rewrite Hcfg.
    destruct (connections p !! n) as [c|] eqn:Hc; [|reflexivity].
    rewrite bool_decide_eq_false_2; [reflexivity|].
    specialize (Hle c eq_refl). lia.
Qed.

Definition busy_pool : MCPConnectionPool :=
  mkPool {[ "echo" := mkConn echo_cfg (Some 7%nat) 2 true ]} {[ "echo" := echo_cfg ]} true ∅.
Definition idle_pool : MCPConnectionPool :=
  mkPool {[ "echo" := mkConn echo_cfg (Some 7%nat) 0 true ]} {[ "echo" := echo_cfg ]} true
         {[ "echo" := TransportCM "echo" ]}.

Lemma remove_server_spec_witness :
  remove_server "ghost" echo_pool = (echo_pool, inl (ServerNotFound "ghost")) /\
  remove_server "echo" busy_pool = (busy_pool, inl (HasActiveConnections "echo")) /\
  remove_server "echo" idle_pool =
    (mkPool ∅ ∅ true {[ "echo" := TransportCM "echo" ]}, inr tt).
Proof.
  split; [|split].
  - apply (proj1 (remove_server_spec echo_pool "ghost")). reflexivity.
  - apply (proj1 (proj2 (remove_server_spec busy_pool "echo")) (mkConn echo_cfg (Some 7%nat) 2 true)).
    + eexists. reflexivity.
    + reflexivity.
    + simpl. lia.
  - rewrite (proj2 (proj2 (remove_server_spec idle_pool "echo"))).
    + reflexivity.
    + eexists. reflexivity.
    + intros c Hc. vm_compute in Hc. injection Hc as <-. simpl. lia.
Defined.

Lemma add_servers_keeps (cfgs : list MCPServerConfig) (p : MCPConnectionPool) (n : string)
      (c0 : MCPServerConfig) :
  configs p !! n = Some c0 -> configs (add_servers cfgs p).1 !! n = Some c0.
Proof.
  revert p. induction cfgs as [|cfg cfgs IH]; intros p Hn; simpl; [exact Hn|].
  unfold bind, try_except, add_server, bind, get_pool, raise, put_pool, ret. simpl.
  destruct (configs p !! name cfg) as [c1|] eqn:Hcfg.
  - apply IH. exact Hn.
  - apply IH. simpl. rewrite lookup_insert_ne; [exact Hn|].
    intros Heq. rewrite Heq in Hcfg. congruence.
Qed.

(** C5: [add_server] with a name already configured raises "already
    configured" and leaves the whole pool unchanged; with a fresh name it
    only inserts the config; and along any sequence of [add_server] calls a
    config already stored under a name stays the one stored. *)
Theorem add_server_spec (p : MCPConnectionPool) (cfg : MCPServerConfig) :
  (forall c0, configs p !! name cfg = Some c0 ->
     add_server cfg p = (p, inl (AlreadyConfigured (name cfg)))) /\
  (configs p !! name cfg = None ->
     add_server cfg p =
       (mkPool (connections p) (<[name cfg := cfg]> (configs p)) (running p) (context_managers p),
        inr tt)) /\
  (forall cfgs n c0, configs p !! n = Some c0 -> configs (add_servers cfgs p).1 !! n = Some c0).
Proof.
  split; [|split].
  - intros c0 H. unfold add_server, bind, get_pool, raise. simpl. rewrite H. reflexivity.
  - intros H. unfold add_server, bind, get_pool, put_pool. simpl. rewrite H. reflexivity.
  - intros cfgs n c0 H. apply add_servers_keeps. exact H.
Qed.

Definition echo_cfg2 : MCPServerConfig :=
  mkConfig "echo" "other-server" ["--flag"] [] STDIO None.

Lemma add_server_spec_witness :
  add_server echo_cfg2 echo_pool = (echo_pool, inl (AlreadyConfigured "echo")) /\
  add_server sse_cfg echo_pool =
    (mkPool ∅ (<[ "remote" := sse_cfg ]> {[ "echo" := echo_cfg ]}) true ∅, inr tt) /\
  configs (add_servers [echo_cfg2; sse_cfg; echo_cfg2] echo_pool).1 !! "echo" = Some echo_cfg.
Proof.
  split; [|split].
  - apply (proj1 (add_server_spec echo_pool echo_cfg2) echo_cfg). reflexivity.
  - apply (proj1 (proj2 (add_server_spec echo_pool sse_cfg))). reflexivity.
  - apply (proj2 (proj2 (add_server_spec echo_pool echo_cfg2))). reflexivity.
Defined.

(** ** Session access guards *)

(** C6: [get_session(n)] raises "pool not running" whenever the pool is
    not running, whatever is configured, and so does [call_tool]; with the
    pool running and [n] not configured it raises "not configured". In
    both cases the pool, its [_connections] included, is unchanged. *)
Theorem get_session_guards {A : Type} (w : World) (p : MCPConnectionPool) (n : string)
      (body : ClientSession -> PyExn + A) :
  (running p = false -> get_session w n body p = (p, inl PoolNotRunning)) /\
  (forall tool, running p = false -> call_tool w n tool p = (p, inl PoolNotRunning)) /\
  (running p = true -> configs p !! n = None -> get_session w n body p = (p, inl (NotConfigured n))).
Proof.
  unfold call_tool, get_session, bind, get_pool, raise. simpl.
  split; [|split].
  - intros H. rewrite H. reflexivity.
  - intros tool H. rewrite H. reflexivity.
  - intros H1 H2. rewrite H1, H2. reflexivity.
Qed.

Lemma get_session_guards_witness :
  get_session ok_world "echo" (list_tools_body ok_world "echo") (set_running false echo_pool)
    = (set_running false echo_pool, inl PoolNotRunning) /\
  call_tool ok_world "echo" "echo_tool" new_pool = (new_pool, inl PoolNotRunning) /\
  get_session ok_world "ghost" (list_tools_body ok_world "ghost") echo_pool
    = (echo_pool, inl (NotConfigured "ghost")).
Proof.
  split; [|split].
  - apply (proj1 (get_session_guards ok_world (set_running false echo_pool) "echo" _)).
    reflexivity.
  - apply (proj1 (proj2 (get_session_guards ok_world new_pool "echo"
                           (list_tools_body ok_world "echo")))).
    reflexivity.
  - apply (proj2 (proj2 (get_session_guards ok_world echo_pool "ghost" _))); reflexivity.
Defined.

(** C8: a config with an [sse] or [streamable_http] transport is added
    like any other (for a fresh name [add_server] succeeds), and the first
    [get_session] on it, with the pool running, raises [NotImplementedError]
    from [_create_connection] and leaves the pool unchanged, with no
    connection entry for the name. *)
Theorem non_stdio_fails_lazily {A : Type} (w : World) (p : MCPConnectionPool)
      (cfg : MCPServerConfig) (body : ClientSession -> PyExn + A) :
  (transport cfg = SSE \/ transport cfg = STREAMABLE_HTTP) ->
  configs p !! name cfg = None ->
  running p = true ->
  conn_keys_ok p ->
  let p1 := mkPool (connections p) (<[name cfg := cfg]> (configs p)) (running p)
                   (context_managers p) in
  add_server cfg p = (p1, inr tt) /\
  get_session w (name cfg) body p1 = (p1, inl (NotImplemented (transport cfg))) /\
  connections p1 !! name cfg = None.
Proof.
  intros Ht Hfresh Hrun Hok p1.
  assert (Hconn : connections p !! name cfg = None).
  { destruct (connections p !! name cfg) eqn:E; [|reflexivity].
    destruct (Hok (name cfg)) as [x Hx]; [eexists; exact E|]. congruence. }
  assert (Hadd : add_server cfg p = (p1, inr tt)).
  { apply (proj1 (proj2 (add_server_spec p cfg))). exact Hfresh. }
  assert (Hr1 : running p1 = true) by exact Hrun.
  assert (Hc1 : configs p1 !! name cfg = Some cfg) by (subst p1; simpl; apply lookup_insert_eq).
  assert (Hn1 : connections p1 !! name cfg = None) by exact Hconn.
  clearbody p1.
  split; [exact Hadd|split; [|exact Hn1]].
  unfold get_session, create_and_store, _create_connection, bind, get_pool, raise.
  rewrite Hr1. simpl. rewrite Hc1, Hn1. simpl. rewrite Hc1.
  destruct Ht as [-> | ->]; reflexivity.
Qed.

Lemma non_stdio_fails_lazily_witness :
  add_server sse_cfg echo_pool =
    (mkPool ∅ (<[ "remote" := sse_cfg ]> {[ "echo" := echo_cfg ]}) true ∅, inr tt) /\
  get_session ok_world "remote" (list_tools_body ok_world "remote")
    (mkPool ∅ (<[ "remote" := sse_cfg ]> {[ "echo" := echo_cfg ]}) true ∅) =
    (mkPool ∅ (<[ "remote" := sse_cfg ]> {[ "echo" := echo_cfg ]}) true ∅, inl (NotImplemented SSE)) /\
  connections (mkPool ∅ (<[ "remote" := sse_cfg ]> {[ "echo" := echo_cfg ]}) true ∅) !! "remote" = None.
Proof.
  apply (non_stdio_fails_lazily ok_world echo_pool sse_cfg (list_tools_body ok_world "remote")).
  - left. reflexivity.
  - reflexivity.
  - reflexivity.
  - intros k [c Hc]. simpl in Hc. rewrite lookup_empty in Hc. discriminate.
Defined.

(** ** Connection-creation failure *)

Definition echo_pool_after_init_failure : MCPConnectionPool :=
  mkPool ∅ {[ "echo" := echo_cfg ]} true
         (<[ "echo_session" := SessionCM "echo" ]> {[ "echo" := TransportCM "echo" ]}).

(** C2: when [session.initialize()] raises, the error reaches the caller of
    [get_session] and [_connections] gets no entry, but the transport and
    session context managers entered by [_create_connection] stay recorded
    in [_context_managers] under ["echo"] and ["echo_session"]; [stop()]
    closes only the names of [_connections], so they are never exited. *)
Theorem init_failure_leaves_context_managers :
  get_session init_fail_world "echo" (list_tools_body init_fail_world "echo") echo_pool =
    (echo_pool_after_init_failure, inl (InitializeError "echo")) /\
  connections echo_pool_after_init_failure = connections echo_pool /\
  context_managers echo_pool_after_init_failure <> context_managers echo_pool /\
  context_managers (stop echo_pool_after_init_failure).1 =
    context_managers echo_pool_after_init_failure.
Proof.
  split; [|split; [|split]].
  - vm_compute. reflexivity.
  - reflexivity.
  - vm_compute. discriminate.
  - vm_compute. reflexivity.
Qed.

(** ** Frame and locality of [get_session] *)

Lemma create_conn_frame (w : World) (n : string) (p : MCPConnectionPool) :
  connections (_create_connection w n p).1 = connections p /\
  configs (_create_connection w n p).1 = configs p /\
  running (_create_connection w n p).1 = running p.
Proof.
  unfold _create_connection, bind, get_pool, raise, put_pool, ret. simpl.
  destruct (configs p !! n) as [cfg|]; simpl; auto.
  destruct (transport cfg); simpl; auto.
  destruct (w_create w n); simpl; auto.
Qed.

Lemma create_conn_result (w : World) (n : string) (p q : MCPConnectionPool) :
  configs q !! n = configs p !! n ->
  (_create_connection w n q).2 = (_create_connection w n p).2.
Proof.
  intros H. unfold _create_connection, bind, get_pool, raise, put_pool, ret. simpl.
  rewrite H. destruct (configs p !! n) as [cfg|]; simpl; auto.
  destruct (transport cfg); simpl; auto.
  destruct (w_create w n); simpl; auto.
Qed.

Lemma get_session_local {A : Type} (w : World) (n : string) (body : ClientSession -> PyExn + A)
      (p q : MCPConnectionPool) :
  running q = running p -> configs q !! n = configs p !! n ->
  connections q !! n = connections p !! n ->
  (get_session w n body q).2 = (get_session w n body p).2.
Proof.
  intros Hr Hc Hn. pose proof (create_conn_result w n p q Hc) as R.
  unfold get_session, bind, get_pool. simpl.
  rewrite Hr, Hc, Hn. destruct (running p); simpl; [|reflexivity].
  destruct (configs p !! n); simpl; [|reflexivity].
  destruct (connections p !! n) as [c|] eqn:Ec; [destruct (is_connected c)|].
  - unfold ret. simpl. destruct (acquire c) as [c' [e|s]]; simpl; [reflexivity|].
    destruct (body s); reflexivity.
  - unfold create_and_store, bind, get_pool, put_pool, ret. simpl.
    destruct (_create_connection w n q) as [q1 rq]; destruct (_create_connection w n p) as [p1 rp].
    simpl in R. subst rq. destruct rp as [e|c0]; simpl; [reflexivity|].
    destruct (acquire c0) as [c' [e|s]]; simpl; [reflexivity|].
    destruct (body s); reflexivity.
  - unfold create_and_store, bind, get_pool, put_pool, ret. simpl.
    destruct (_create_connection w n q) as [q1 rq]; destruct (_create_connection w n p) as [p1 rp].
    simpl in R. subst rq. destruct rp as [e|c0]; simpl; [reflexivity|].
    destruct (acquire c0) as [c' [e|s]]; simpl; [reflexivity|].
    destruct (body s); reflexivity.
Qed.

Lemma get_session_frame {A : Type} (w : World) (n : string) (body : ClientSession -> PyExn + A)
      (p : MCPConnectionPool) :
  running (get_session w n body p).1 = running p /\
  configs (get_session w n body p).1 = configs p /\
  (forall k, k <> n -> connections (get_session w n body p).1 !! k = connections p !! k).
Proof.
  pose proof (create_conn_frame w n p) as (F1 & F2 & F3).
  unfold get_session, bind, get_pool. simpl.
  destruct (running p) eqn:Hrun; simpl; [|unfold raise; auto].
  destruct (configs p !! n); simpl; [|unfold raise; auto].
  destruct (connections p !! n) as [c|] eqn:Ec; [destruct (is_connected c)|].
  - unfold ret, put_pool, raise. simpl.
    destruct (acquire c) as [c' [e|s]]; simpl;
      [|destruct (body s)]; simpl; (split; [|split];
      [congruence|congruence|intros k Hk; rewrite ?lookup_insert_ne by congruence; reflexivity]).
  - unfold create_and_store, bind, get_pool, put_pool, ret, raise. simpl.
    destruct (_create_connection w n p) as [p1 [e|c0]]; simpl in *;
      [split; [|split]; [congruence|congruence|intros k Hk; congruence]|].
    destruct (acquire c0) as [c' [e|s]]; simpl;
      [|destruct (body s)]; simpl; (split; [|split];
      [congruence|congruence|intros k Hk; rewrite ?lookup_insert_ne by congruence; congruence]).
  - unfold create_and_store, bind, get_pool, put_pool, ret, raise. simpl.
    destruct (_create_connection w n p) as [p1 [e|c0]]; simpl in *;
      [split; [|split]; [congruence|congruence|intros k Hk; congruence]|].
    destruct (acquire c0) as [c' [e|s]]; simpl;
      [|destruct (body s)]; simpl; (split; [|split];
      [congruence|congruence|intros k Hk; rewrite ?lookup_insert_ne by congruence; congruence]).
Qed.

(** ** [get_all_tools] *)

Lemma try_list_tools (w : World) (n : string) (p : MCPConnectionPool) :
  try_except (get_session w n (list_tools_body w n)) (fun _ => ret []) p =
    ((get_session w n (list_tools_body w n) p).1, inr (tools_outcome w p n)).
Proof.
  unfold try_except, tools_outcome, ret.
  destruct (get_session w n (list_tools_body w n) p) as [p1 [e|ts]]; reflexivity.
Qed.

Lemma get_all_tools_loop_spec (w : World) (ks : list string) :
  forall (acc : gmap string (list string)) (p : MCPConnectionPool),
  NoDup ks ->
  exists p' acc', get_all_tools_loop w ks acc p = (p', inr acc') /\
    running p' = running p /\ configs p' = configs p /\
    (forall k, k ∉ ks -> connections p' !! k = connections p !! k) /\
    (forall k, acc' !! k = if decide (k ∈ ks) then Some (tools_outcome w p k) else acc !! k).
Proof.
  induction ks as [|n ks IH]; intros acc p Hnd.
  - exists p, acc. split; [reflexivity|]. split; [reflexivity|]. split; [reflexivity|].
    split; [reflexivity|]. intros k. rewrite decide_False; [reflexivity|]. apply not_elem_of_nil.
  - apply NoDup_cons in Hnd as [Hn Hnd].
    pose proof (get_session_frame w n (list_tools_body w n) p) as (Fr & Fc & Fk).
    destruct (IH (<[n := tools_outcome w p n]> acc) (get_session w n (list_tools_body w n) p).1 Hnd)
      as (p' & acc' & E & Hr & Hc & Hk & Hacc).
    exists p', acc'. simpl. unfold bind. rewrite try_list_tools. split; [exact E|].
    split; [congruence|]. split; [congruence|]. split.
    + intros k Hk'. rewrite Hk by set_solver. apply Fk. set_solver.
    + intros k. rewrite Hacc. destruct (decide (k ∈ ks)) as [Hin|Hin].
      * rewrite decide_True by set_solver. f_equal.
        assert (k <> n) by (intros ->; contradiction).
        unfold tools_outcome. rewrite (get_session_local w k (list_tools_body w k) p); auto.
        rewrite Fc. reflexivity.
      * destruct (decide (k = n)) as [->|Hne].
        -- rewrite lookup_insert_eq. rewrite decide_True by set_solver. reflexivity.
        -- rewrite lookup_insert_ne by congruence. rewrite decide_False by set_solver. reflexivity.
Qed.

Lemma elem_of_map_keys {V : Type} (m : gmap string V) (k : string) :
  k ∈ (map_to_list m).*1 <-> is_Some (m !! k).
Proof.
  split.
  - intros Hk. apply list_elem_of_fmap in Hk as ([k' v] & -> & Hkv).
    apply elem_of_map_to_list in Hkv. simpl. eexists. exact Hkv.
  - intros [v Hv]. apply list_elem_of_fmap. exists (k, v). split; [reflexivity|].
    apply elem_of_map_to_list. exact Hv.
Qed.

(** C7: [get_all_tools] never raises and returns an entry for exactly the
    configured names; a name whose [get_session]/[list_tools] raises maps
    to [], a healthy one to the tool list it returns. *)
Theorem get_all_tools_total (w : World) (p : MCPConnectionPool) :
  exists p' tools, get_all_tools w p = (p', inr tools) /\
    forall n,
      (configs p !! n = None -> tools !! n = None) /\
      (forall cfg, configs p !! n = Some cfg ->
         (forall e, (get_session w n (list_tools_body w n) p).2 = inl e -> tools !! n = Some []) /\
         (forall ts, (get_session w n (list_tools_body w n) p).2 = inr ts -> tools !! n = Some ts)).
Proof.
  destruct (get_all_tools_loop_spec w (map_to_list (configs p)).*1 ∅ p (NoDup_fst_map_to_list _))
    as (p' & tools & E & _ & _ & _ & Ht).
  exists p', tools. split; [exact E|].
  intros n. rewrite Ht. split.
  - intros Hn. rewrite decide_False; [apply lookup_empty|].
    rewrite elem_of_map_keys, Hn. intros [? H]; discriminate.
  - intros cfg Hcfg. rewrite decide_True by (apply elem_of_map_keys; rewrite Hcfg; eexists; reflexivity).
    unfold tools_outcome. split; intros ? ->; reflexivity.
Qed.

Definition mixed_pool : MCPConnectionPool :=
  mkPool ∅ (<[ "remote" := sse_cfg ]> {[ "echo" := echo_cfg ]}) true ∅.

Lemma get_all_tools_total_witness :
  exists p' tools, get_all_tools ok_world mixed_pool = (p', inr tools) /\
    tools !! "echo" = Some ["echo_tool"] /\ tools !! "remote" = Some [] /\
    tools !! "ghost" = None.
Proof.
  destruct (get_all_tools_total ok_world mixed_pool) as (p' & tools & E & H).
  exists p', tools. split; [exact E|]. split; [|split].
  - apply (proj2 (proj2 (H "echo") echo_cfg eq_refl)). vm_compute. reflexivity.
  - apply (proj1 (proj2 (H "remote") sse_cfg eq_refl) (NotImplemented SSE)). vm_compute. reflexivity.
  - apply (proj1 (H "ghost")). vm_compute. reflexivity.
Defined.

(** ** The [_connections] keys invariant *)

Lemma get_session_conn_keys {A : Type} (w : World) (n : string) (body : ClientSession -> PyExn + A)
      (p : MCPConnectionPool) :
  conn_keys_ok p -> conn_keys_ok (get_session w n body p).1.
Proof.
  intros Hok k Hk.
  pose proof (get_session_frame w n body p) as (_ & Fc & Fk).
  rewrite Fc. destruct (decide (k = n)) as [->|Hne].
  - destruct (configs p !! n) as [cfg|] eqn:Hcfg; [eexists; reflexivity|].
    unfold get_session, bind, get_pool, raise in Hk. simpl in Hk.
    rewrite <- Hcfg. apply Hok.
    destruct (running p); simpl in Hk; rewrite ?Hcfg in Hk; exact Hk.
  - apply Hok. rewrite <- Fk by exact Hne. exact Hk.
Qed.

Lemma close_connections_conn_keys (ns : list string) (p : MCPConnectionPool) :
  conn_keys_ok p -> conn_keys_ok (foldl (fun q n => _close_connection n q) p ns).
Proof.
  revert p. induction ns as [|n ns IH]; intros p Hok; simpl; [exact Hok|].
  apply IH. unfold _close_connection.
  destruct (connections p !! n); [|exact Hok].
  intros k Hk. simpl in *. apply Hok.
  destruct (decide (k = n)) as [->|Hne].
  - rewrite lookup_delete_eq in Hk. destruct Hk as [? H]; discriminate.
  - rewrite lookup_delete_ne in Hk by congruence. exact Hk.
Qed.

(** Run one at a time, the public operations keep every key of
    [_connections] a key of [_configs]. *)
Lemma seq_ops_preserve_conn_keys (w : World) (p : MCPConnectionPool) :
  conn_keys_ok p ->
  (forall cfg, conn_keys_ok (add_server cfg p).1) /\
  (forall n, conn_keys_ok (remove_server n p).1) /\
  (forall n (body : ClientSession -> PyExn + list string), conn_keys_ok (get_session w n body p).1) /\
  conn_keys_ok (start p).1 /\
  conn_keys_ok (stop p).1.
Proof.
  intros Hok. split; [|split; [|split; [|split]]].
  - intros cfg. unfold add_server, bind, get_pool, raise, put_pool. simpl.
    destruct (configs p !! name cfg) as [c0|] eqn:E; [exact Hok|].
    intros k Hk. simpl in *. destruct (decide (k = name cfg)) as [->|Hne].
    + rewrite lookup_insert_eq. eexists; reflexivity.
    + rewrite lookup_insert_ne by congruence. apply Hok. exact Hk.
  - intros n. unfold remove_server, bind, get_pool, raise, put_pool. simpl.
    assert (Hdel : conn_keys_ok (mkPool (delete n (connections p)) (delete n (configs p))
                                        (running p) (context_managers p))).
    { intros k Hk. simpl in *. destruct (decide (k = n)) as [->|Hne].
      - rewrite lookup_delete_eq in Hk. destruct Hk as [? H]; discriminate.
      - rewrite lookup_delete_ne in Hk by congruence.
        rewrite lookup_delete_ne by congruence. apply Hok. exact Hk. }
    destruct (configs p !! n); [|exact Hok].
    destruct (connections p !! n) as [c|]; [|exact Hdel].
    destruct (bool_decide (0 < ref_count c)%Z); [exact Hok|exact Hdel].
  - intros n body. apply get_session_conn_keys. exact Hok.
  - exact Hok.
  - unfold stop, bind, get_pool, put_pool. simpl.
    apply close_connections_conn_keys. exact Hok.
Qed.

(** C9: interleaved with a [get_session] task suspended inside
    [_create_connection], a [remove_server] of the same name succeeds (the
    name has a config and no connection yet, and [remove_server] does not
    take the pool lock); when [initialize] returns, the task stores the
    connection, so [_connections] has a key that [_configs] lacks. *)
Theorem remove_during_creation_breaks_conn_keys :
  exists s, rtc (sys_step ok_world) (callers echo_pool "echo" 1) s /\
    conn_keys_ok echo_pool /\
    is_Some (connections (g_pool (s_glob s)) !! "echo") /\
    configs (g_pool (s_glob s)) !! "echo" = None.
Proof.
  eexists. split; [|split; [|split]].
  - eapply rtc_l. { left. eapply (TaskStep _ _ 0); reflexivity. }
    eapply rtc_l. { left. eapply (TaskStep _ _ 0); reflexivity. }
    eapply rtc_l. { right. apply (EnvRemoveServer _ "echo"). }
    eapply rtc_l. { left. eapply (TaskStep _ _ 0); reflexivity. }
    apply rtc_refl.
  - intros k [c Hc]. simpl in Hc. rewrite lookup_empty in Hc. discriminate.
  - vm_compute. eexists. reflexivity.
  - vm_compute. reflexivity.
Qed.

(** ** Concurrent first use of a server *)

Lemma count_tasks_insert (f : gs_pc -> bool) (l : list Task) (i : nat) (x y : Task) :
  l !! i = Some x ->
  count_tasks f (<[i := y]> l) + (if f (t_pc x) then 1 else 0) =
  count_tasks f l + (if f (t_pc y) then 1 else 0).
Proof.
  revert i. induction l as [|t l IH]; intros i Hi; [discriminate|].
  destruct i as [|i]; simpl in *.
  - injection Hi as ->. lia.
  - specialize (IH i Hi). lia.
Qed.

Lemma count_tasks_pos (f : gs_pc -> bool) (l : list Task) (i : nat) (x : Task) :
  l !! i = Some x -> f (t_pc x) = true -> 1 <= count_tasks f l.
Proof.
  revert i. induction l as [|t l IH]; intros i Hi Hf; [discriminate|].
  destruct i as [|i]; simpl in *.
  - injection Hi as ->. rewrite Hf. lia.
  - specialize (IH i Hi Hf). lia.
Qed.

Lemma count_tasks_exists (f : gs_pc -> bool) (l : list Task) :
  1 <= count_tasks f l -> exists i x, l !! i = Some x /\ f (t_pc x) = true.
Proof.
  induction l as [|t l IH]; simpl; intros H; [lia|].
  destruct (f (t_pc t)) eqn:Hf.
  - exists 0, t. split; [reflexivity|exact Hf].
  - destruct (IH H) as (i & x & Hi & Hx). exists (S i), x. split; [exact Hi|exact Hx].
Qed.

Lemma count_tasks_all (f : gs_pc -> bool) (l : list Task) :
  (forall i x, l !! i = Some x -> f (t_pc x) = true) -> count_tasks f l = length l.
Proof.
  induction l as [|t l IH]; simpl; intros H; [reflexivity|].
  rewrite (H 0 t eq_refl). rewrite IH; [reflexivity|].
  intros i x Hi. apply (H (S i)). exact Hi.
Qed.

Lemma tasks_weight_insert (l : list Task) (i : nat) (x y : Task) :
  l !! i = Some x ->
  tasks_weight (<[i := y]> l) + pc_weight (t_pc x) = tasks_weight l + pc_weight (t_pc y).
Proof.
  revert i. induction l as [|t l IH]; intros i Hi; [discriminate|].
  destruct i as [|i]; simpl in *.
  - injection Hi as ->. lia.
  - specialize (IH i Hi). lia.
Qed.

Lemma gs_step_weight (w : World) (n : string) (g g' : Glob) (pc pc' : gs_pc) :
  gs_step w n g pc = Some (g', pc') -> pc_weight pc' < pc_weight pc.
Proof.
  assert (Hacq : forall c g0, pc_weight (acquire_step n c g0).2 = 0).
  { intros c g0. unfold acquire_step, acquire. destruct (session c); reflexivity. }
  assert (Hsc : forall g0, pc_weight (start_create n g0).2 <= 1).
  { intros g0. unfold start_create.
    destruct (configs (g_pool g0) !! n) as [c|]; simpl; [|lia].
    destruct (transport c); simpl; lia. }
  assert (Hfin : forall c g0, pc_weight (finish_create w n c g0).2 = 0).
  { intros c g0. unfold finish_create. destruct (w_create w n); reflexivity. }
  destruct pc as [| |c|s|e]; simpl; intros H.
  - destruct (negb (running (g_pool g))).
    + injection H as _ <-. simpl. lia.
    + destruct (configs (g_pool g) !! n); injection H as _ <-; simpl; lia.
  - destruct (g_locked g); [discriminate|].
    destruct (connections (g_pool g) !! n) as [c|]; [destruct (is_connected c)|];
      injection H as H; [pose proof (Hacq c g) as Hw|pose proof (Hsc g) as Hw|pose proof (Hsc g) as Hw];
      rewrite H in Hw; simpl in Hw; lia.
  - injection H as H. pose proof (Hfin c g) as Hw. rewrite H in Hw. simpl in Hw. lia.
  - discriminate.
  - discriminate.
Qed.

Lemma task_step_weight (w : World) (s s' : Sys) :
  task_step w s s' -> tasks_weight (s_tasks s') < tasks_weight (s_tasks s).
Proof.
  intros [s0 i t g' pc' Hi Hstep]. simpl.
  pose proof (tasks_weight_insert (s_tasks s0) i t (mkTask (t_name t) pc') Hi) as E.
  pose proof (gs_step_weight _ _ _ _ _ _ Hstep) as Hw. simpl in E. lia.
Qed.

Lemma task_step_acc (w : World) (m : nat) :
  forall s, tasks_weight (s_tasks s) < m -> Acc (fun y x => task_step w x y) s.
Proof.
  induction m as [|m IH]; intros s Hs; [lia|].
  constructor. intros s' Hstep. apply IH.
  pose proof (task_step_weight w s s' Hstep). lia.
Qed.

Section Callers.
Variables (w : World) (n : string) (cfg : MCPServerConfig) (sid : ClientSession) (N : nat).
Hypothesis Hw : w_create w n = Connects sid.
Hypothesis Hstdio : transport cfg = STDIO.

Lemma is_connected_live (k : Z) : is_connected (mkConn cfg (Some sid) k true) = true.
Proof. reflexivity. Qed.

Lemma callers_inv_step (s s' : Sys) :
  callers_inv n cfg sid N s -> task_step w s s' -> callers_inv n cfg sid N s'.
Proof.
  intros Hinv Hst. inversion Hst as [s0 i t g' pc' Hi Hstep]; subst s0 s'.
  destruct Hinv as (Hlen & Hall & Hrun & Hcfg & Hphase).
  pose proof (Forall_lookup_1 _ _ _ _ Hall Hi) as [Hname Hpc].
  destruct t as [tn tpc]; simpl in Hname, Hpc, Hstep |- *; subst tn.
  set (l := s_tasks s) in *. set (g := s_glob s) in *.
  assert (Hacq := count_tasks_insert is_acquired l i (mkTask n tpc) (mkTask n pc') Hi).
  assert (Hcre := count_tasks_insert is_creating l i (mkTask n tpc) (mkTask n pc') Hi).
  simpl in Hacq, Hcre.
  assert (Hgen : forall g'' : Glob, pc_ok cfg sid pc' ->
            running (g_pool g'') = true -> configs (g_pool g'') !! n = Some cfg ->
            length (<[i := mkTask n pc']> l) = N /\
            Forall (fun t => t_name t = n /\ pc_ok cfg sid (t_pc t)) (<[i := mkTask n pc']> l) /\
            running (g_pool g'') = true /\ configs (g_pool g'') !! n = Some cfg).
  { intros g'' Hok Hr Hc. split; [rewrite length_insert; exact Hlen|].
    split; [apply Forall_insert; [exact Hall|split; [reflexivity|exact Hok]]|].
    split; assumption. }
  destruct tpc as [| |c|s1|e]; simpl in Hstep.
  - (* GS_Start *)
    rewrite Hrun, Hcfg in Hstep. simpl in Hstep. injection Hstep as <- <-.
    simpl in Hacq, Hcre.
    destruct (Hgen g I Hrun Hcfg) as (H1 & H2 & H3 & H4).
    split; [exact H1|]. split; [exact H2|]. split; [exact H3|]. split; [exact H4|].
    destruct Hphase as [(A1 & A2 & A3 & A4 & A5 & A6)|(B1 & B2 & B3 & B4 & B5)].
    + left. cbn [s_tasks s_glob]. repeat split; try assumption; lia.
    + right. cbn [s_tasks s_glob]. rewrite B1. repeat split; try assumption; try lia.
      do 3 f_equal. lia.
  - (* GS_WaitLock *)
    destruct (g_locked g) eqn:Hl; [discriminate|].
    destruct Hphase as [(A1 & A2 & A3 & A4 & A5 & A6)|(B1 & B2 & B3 & B4 & B5)].
    + assert (Hsp0 : g_spawns g = 0).
      { symmetry in A5. apply bool_decide_eq_false_1 in A5. lia. }
      assert (Hsc : Some (start_create n g) = Some (g', pc')).
      { rewrite <- Hstep. destruct (connections (g_pool g) !! n) as [c|];
          [rewrite (A1 c eq_refl)|]; reflexivity. }
      clear Hstep. injection Hsc as Hstep. unfold start_create in Hstep.
      rewrite Hcfg, Hstdio in Hstep. injection Hstep as <- <-. simpl in Hacq, Hcre.
      destruct (Hgen (mkGlob (g_pool g) true (S (g_spawns g)) (g_inits g)) eq_refl Hrun Hcfg)
        as (H1 & H2 & H3 & H4).
      split; [exact H1|]. split; [exact H2|]. split; [exact H3|]. split; [exact H4|].
      left. simpl. repeat split; try assumption; try lia.
      rewrite Hsp0. reflexivity.
    + rewrite B1, is_connected_live in Hstep. unfold acquire_step in Hstep. simpl in Hstep.
      injection Hstep as <- <-. simpl in Hacq, Hcre.
      destruct (Hgen (mkGlob (set_connections
                 (<[n := mkConn cfg (Some sid) (Z.of_nat (count_tasks is_acquired l) + 1) true]>
                    (connections (g_pool g))) (g_pool g)) false (g_spawns g) (g_inits g))
                 eq_refl Hrun Hcfg) as (H1 & H2 & H3 & H4).
      split; [exact H1|]. split; [exact H2|]. split; [exact H3|]. split; [exact H4|].
      right. simpl. rewrite lookup_insert_eq. repeat split; try assumption; try lia.
      do 3 f_equal. lia.
  - (* GS_Creating *)
    simpl in Hpc. subst c.
    destruct Hphase as [(A1 & A2 & A3 & A4 & A5 & A6)|(B1 & B2 & B3 & B4 & B5)].
    + assert (Hpos := count_tasks_pos is_creating l i (mkTask n (GS_Creating cfg)) Hi eq_refl).
      assert (Hsp1 : g_spawns g = 1) by lia.
      unfold finish_create in Hstep. rewrite Hw in Hstep. unfold acquire_step in Hstep.
      simpl in Hstep. injection Hstep as <- <-. simpl in Hacq, Hcre.
      match goal with |- context [mkGlob ?P false _ _] =>
        destruct (Hgen (mkGlob P false (g_spawns g) (S (g_inits g))) eq_refl Hrun Hcfg)
          as (H1 & H2 & H3 & H4) end.
      split; [exact H1|]. split; [exact H2|]. split; [exact H3|]. split; [exact H4|].
      right. simpl. rewrite lookup_insert_eq. repeat split; try lia.
      do 3 f_equal. lia.
    + pose proof (count_tasks_pos is_creating l i (mkTask n (GS_Creating cfg)) Hi eq_refl). lia.
  - discriminate.
  - discriminate.
Qed.

Lemma count_tasks_replicate (f : gs_pc -> bool) (k : nat) (t : Task) :
  f (t_pc t) = false -> count_tasks f (replicate k t) = 0.
Proof. intros Hf. induction k as [|k IH]; simpl; [reflexivity|]. rewrite Hf, IH. reflexivity. Qed.

Lemma callers_inv_init (p : MCPConnectionPool) :
  running p = true -> configs p !! n = Some cfg ->
  (forall c, connections p !! n = Some c -> is_connected c = false) ->
  callers_inv n cfg sid N (callers p n N).
Proof.
  intros Hr Hc Hnc. unfold callers_inv, callers. cbn [s_tasks s_glob g_pool g_spawns g_locked g_inits].
  split; [apply length_replicate|].
  split; [apply Forall_replicate; split; [reflexivity|exact I]|].
  split; [exact Hr|]. split; [exact Hc|].
  left. rewrite !count_tasks_replicate by reflexivity.
  repeat split; try lia; exact Hnc.
Qed.

Lemma callers_inv_reach (s0 s : Sys) :
  callers_inv n cfg sid N s0 -> rtc (task_step w) s0 s -> callers_inv n cfg sid N s.
Proof.
  intros H0 Hr. induction Hr as [x|x y z Hxy Hyz IH]; [exact H0|].
  apply IH. eapply callers_inv_step; eassumption.
Qed.

Lemma step_of_gs_step (s : Sys) (j : nat) (t : Task) :
  s_tasks s !! j = Some t -> gs_step w (t_name t) (s_glob s) (t_pc t) <> None ->
  exists s', task_step w s s'.
Proof.
  intros Hj Hs. destruct (gs_step w (t_name t) (s_glob s) (t_pc t)) as [[g' pc']|] eqn:E;
    [|contradiction].
  eexists. eapply TaskStep; eassumption.
Qed.

Lemma callers_inv_progress (s : Sys) (i : nat) (t : Task) :
  callers_inv n cfg sid N s -> s_tasks s !! i = Some t -> is_acquired (t_pc t) = false ->
  exists s', task_step w s s'.
Proof.
  intros (Hlen & Hall & Hrun & Hcfg & Hphase) Hi Hna.
  pose proof (Forall_lookup_1 _ _ _ _ Hall Hi) as [Hname Hpc].
  destruct t as [tn tpc]; simpl in Hname, Hpc, Hna; subst tn.
  destruct tpc as [| |c|s1|e]; try discriminate; try contradiction.
  - apply (step_of_gs_step s i _ Hi). simpl. rewrite Hrun, Hcfg. discriminate.
  - destruct (g_locked (s_glob s)) eqn:Hl.
    + destruct Hphase as [(A1 & A2 & A3 & A4 & A5 & A6)|(B1 & B2 & B3 & B4 & B5)]; [|congruence].
      symmetry in A5. apply bool_decide_eq_true_1 in A5.
      destruct (count_tasks_exists is_creating (s_tasks s)) as (j & t' & Hj & Hc); [lia|].
      apply (step_of_gs_step s j t' Hj).
      destruct (t_pc t'); discriminate.
    + apply (step_of_gs_step s i _ Hi). simpl. rewrite Hl.
      destruct (connections (g_pool (s_glob s)) !! n) as [c|]; [destruct (is_connected c)|];
        discriminate.
  - apply (step_of_gs_step s i _ Hi). simpl. discriminate.
Qed.

Lemma callers_inv_terminal (s : Sys) :
  0 < N -> callers_inv n cfg sid N s -> terminal w s ->
  g_spawns (s_glob s) = 1 /\ g_inits (s_glob s) = 1 /\
  Forall (fun t => t_pc t = GS_Acquired sid) (s_tasks s) /\
  connections (g_pool (s_glob s)) !! n = Some (mkConn cfg (Some sid) (Z.of_nat N) true).
Proof.
  intros HN Hinv Hterm.
  assert (Hacq : forall i t, s_tasks s !! i = Some t -> is_acquired (t_pc t) = true).
  { intros i t Hi. destruct (is_acquired (t_pc t)) eqn:E; [reflexivity|].
    exfalso. apply Hterm. eapply callers_inv_progress; eassumption. }
  destruct Hinv as (Hlen & Hall & Hrun & Hcfg & Hphase).
  pose proof (count_tasks_all is_acquired (s_tasks s) Hacq) as Hcnt. rewrite Hlen in Hcnt.
  destruct Hphase as [(A1 & A2 & A3 & A4 & A5 & A6)|(B1 & B2 & B3 & B4 & B5)]; [lia|].
  split; [exact B3|]. split; [exact B4|]. split.
  - apply Forall_lookup_2. intros i t Hi.
    pose proof (Forall_lookup_1 _ _ _ _ Hall Hi) as [_ Hpc]. specialize (Hacq i t Hi).
    destruct (t_pc t); try discriminate; try contradiction. simpl in Hpc. subst. reflexivity.
  - rewrite B1, Hcnt. reflexivity.
Qed.

End Callers.

(** C1: [N >= 1] tasks call [get_session(n)] concurrently on a running
    pool where [n] is configured with a stdio transport and has no live
    connection, and connecting succeeds. Under every interleaving: the runs
    are finite; at most one transport is spawned and one session
    initialized; and once no task can move, exactly one spawn and one
    [initialize] have happened, every task holds the one session, and the
    stored connection's reference count is [N]. *)
Theorem concurrent_get_session_single_creation (w : World) (p : MCPConnectionPool)
    (n : string) (cfg : MCPServerConfig) (sid : ClientSession) (N : nat) :
  0 < N ->
  running p = true ->
  configs p !! n = Some cfg ->
  transport cfg = STDIO ->
  w_create w n = Connects sid ->
  (forall c, connections p !! n = Some c -> is_connected c = false) ->
  Acc (fun y x => task_step w x y) (callers p n N) /\
  forall s, rtc (task_step w) (callers p n N) s ->
    g_spawns (s_glob s) <= 1 /\ g_inits (s_glob s) <= 1 /\
    (terminal w s ->
       g_spawns (s_glob s) = 1 /\ g_inits (s_glob s) = 1 /\
       Forall (fun t => t_pc t = GS_Acquired sid) (s_tasks s) /\
       connections (g_pool (s_glob s)) !! n = Some (mkConn cfg (Some sid) (Z.of_nat N) true)).
Proof.
  intros HN Hr Hc Hst Hw Hnc. split.
  - apply (task_step_acc w (S (tasks_weight (s_tasks (callers p n N))))). lia.
  - intros s Hreach.
    pose proof (callers_inv_reach w n cfg sid N Hw Hst _ _
                  (callers_inv_init n cfg sid N p Hr Hc Hnc) Hreach) as Hinv.
    split; [|split].
    + destruct Hinv as (_ & _ & _ & _ & [(A1 & A2 & A3 & A4 & A5 & A6)|(B1 & B2 & B3 & B4 & B5)]); lia.
    + destruct Hinv as (_ & _ & _ & _ & [(A1 & A2 & A3 & A4 & A5 & A6)|(B1 & B2 & B3 & B4 & B5)]); lia.
    + intros Hterm. eapply callers_inv_terminal; eassumption.
Qed.

Lemma concurrent_get_session_single_creation_witness :
  Acc (fun y x => task_step ok_world x y) (callers echo_pool "echo" 3) /\
  forall s, rtc (task_step ok_world) (callers echo_pool "echo" 3) s ->
    g_spawns (s_glob s) <= 1 /\ g_inits (s_glob s) <= 1 /\
    (terminal ok_world s ->
       g_spawns (s_glob s) = 1 /\ g_inits (s_glob s) = 1 /\
       Forall (fun t => t_pc t = GS_Acquired 7) (s_tasks s) /\
       connections (g_pool (s_glob s)) !! "echo" = Some (mkConn echo_cfg (Some 7%nat) 3 true)).
Proof.
  apply (concurrent_get_session_single_creation ok_world echo_pool "echo" echo_cfg 7 3).
  - lia.
  - reflexivity.
  - reflexivity.
  - reflexivity.
  - reflexivity.
  - intros c Hc. vm_compute in Hc. discriminate.
Defined.

(** ** [stop] and [_close_connection] *)

Lemma close_conn_lookup (n : string) (q : MCPConnectionPool) (k : string) :
  connections (_close_connection n q) !! k =
    if decide (k = n) then None else connections q !! k.
Proof.
  unfold _close_connection. destruct (connections q !! n) eqn:E; simpl.
  - destruct (decide (k = n)) as [->|Hne];
      [apply lookup_delete_eq|rewrite lookup_delete_ne by congruence; reflexivity].
  - destruct (decide (k = n)) as [->|]; [exact E|reflexivity].
Qed.

Lemma close_cms_frame (n : string) (q : MCPConnectionPool) (k : string) :
  k <> n -> k <> session_key n ->
  context_managers (_close_connection n q) !! k = context_managers q !! k.
Proof.
  intros H1 H2. unfold _close_connection. destruct (connections q !! n); [|reflexivity].
  simpl. rewrite !lookup_delete_ne by congruence. reflexivity.
Qed.

Lemma close_cms_none (n : string) (q : MCPConnectionPool) (k : string) :
  context_managers q !! k = None -> context_managers (_close_connection n q) !! k = None.
Proof.
  intros H. unfold _close_connection. destruct (connections q !! n); [|exact H].
  simpl. rewrite !lookup_delete_None. auto.
Qed.

Lemma close_fold_frame (ns : list string) (q : MCPConnectionPool) :
  configs (foldl (fun q n => _close_connection n q) q ns) = configs q /\
  running (foldl (fun q n => _close_connection n q) q ns) = running q.
Proof.
  revert q. induction ns as [|n ns IH]; intros q; simpl; [auto|].
  destruct (IH (_close_connection n q)) as [-> ->].
  unfold _close_connection. destruct (connections q !! n); auto.
Qed.

Lemma close_fold_conns (ns : list string) (q : MCPConnectionPool) (k : string) :
  connections (foldl (fun q n => _close_connection n q) q ns) !! k =
    if decide (k ∈ ns) then None else connections q !! k.
Proof.
  revert q. induction ns as [|n ns IH]; intros q; cbn [foldl].
  - rewrite decide_False by apply not_elem_of_nil. reflexivity.
  - rewrite IH, close_conn_lookup.
    destruct (decide (k ∈ ns)); [rewrite decide_True by set_solver; reflexivity|].
    destruct (decide (k = n)) as [->|Hne].
    + rewrite decide_True by set_solver. reflexivity.
    + rewrite decide_False by set_solver. reflexivity.
Qed.

Lemma close_fold_cms_none (ns : list string) (q : MCPConnectionPool) (k : string) :
  context_managers q !! k = None ->
  context_managers (foldl (fun q n => _close_connection n q) q ns) !! k = None.
Proof.
  revert q. induction ns as [|n ns IH]; intros q H; simpl; [exact H|].
  apply IH, close_cms_none, H.
Qed.

Lemma close_fold_cms_frame (ns : list string) (q : MCPConnectionPool) (k : string) :
  (forall n, n ∈ ns -> k <> n /\ k <> session_key n) ->
  context_managers (foldl (fun q n => _close_connection n q) q ns) !! k = context_managers q !! k.
Proof.
  revert q. induction ns as [|n ns IH]; intros q H; simpl; [reflexivity|].
  rewrite IH by set_solver. destruct (H n) as [H1 H2]; [set_solver|].
  apply close_cms_frame; assumption.
Qed.

Lemma close_fold_cms_closed (ns : list string) (q : MCPConnectionPool) :
  NoDup ns -> (forall n, n ∈ ns -> is_Some (connections q !! n)) ->
  forall n, n ∈ ns ->
    context_managers (foldl (fun q n => _close_connection n q) q ns) !! n = None /\
    context_managers (foldl (fun q n => _close_connection n q) q ns) !! session_key n = None.
Proof.
  revert q. induction ns as [|m ns IH]; intros q Hnd Hs n Hn; [set_solver|].
  apply NoDup_cons in Hnd as [Hm Hnd]. simpl.
  apply elem_of_cons in Hn as [<-|Hn].
  - destruct (Hs n ltac:(set_solver)) as [c Hc].
    assert (E : context_managers (_close_connection n q) !! n = None /\
                context_managers (_close_connection n q) !! session_key n = None).
    { unfold _close_connection. rewrite Hc. simpl. rewrite !lookup_delete_None. auto. }
    destruct E as [E1 E2]. split; apply close_fold_cms_none; assumption.
  - apply IH; [exact Hnd| |exact Hn].
    intros k Hk. rewrite close_conn_lookup.
    rewrite decide_False by (intros ->; contradiction). apply Hs. set_solver.
Qed.

(** X1: [stop] never raises; afterwards the pool is not running, has no
    connection (so [active_connections] is 0) and keeps every config; for
    each name that had a connection the [name] and [name_session] context
    managers are gone, and every other context manager is left as it was. *)
Theorem stop_closes_everything (p : MCPConnectionPool) :
  (stop p).2 = inr tt /\ running (stop p).1 = false /\ configs (stop p).1 = configs p /\
  connections (stop p).1 = ∅ /\ active_connections (stop p).1 = 0 /\
  (forall n, is_Some (connections p !! n) ->
     context_managers (stop p).1 !! n = None /\
     context_managers (stop p).1 !! session_key n = None) /\
  (forall k, (forall n, is_Some (connections p !! n) -> k <> n /\ k <> session_key n) ->
     context_managers (stop p).1 !! k = context_managers p !! k).
Proof.
  set (ns := (map_to_list (connections p)).*1).
  assert (Hconn : connections (foldl (fun q n => _close_connection n q) (set_running false p) ns) = ∅).
  { apply map_eq. intros k. rewrite lookup_empty, close_fold_conns.
    destruct (decide (k ∈ ns)) as [|Hk]; [reflexivity|].
    simpl. destruct (connections p !! k) eqn:E; [|reflexivity].
    exfalso. apply Hk. apply elem_of_map_keys. rewrite E. eexists; reflexivity. }
  destruct (close_fold_frame ns (set_running false p)) as [Fc Fr].
  unfold stop, bind, get_pool, put_pool. simpl. fold ns.
  split; [reflexivity|]. split; [exact Fr|]. split; [exact Fc|]. split; [exact Hconn|].
  split; [unfold active_connections; rewrite Hconn, map_to_list_empty; reflexivity|]. split.
  - intros n Hn. apply close_fold_cms_closed.
    + apply NoDup_fst_map_to_list.
    + intros m Hm. apply elem_of_map_keys. exact Hm.
    + apply elem_of_map_keys. exact Hn.
  - intros k Hk. rewrite close_fold_cms_frame; [reflexivity|].
    intros n Hn. apply Hk. apply elem_of_map_keys. exact Hn.
Qed.

(** ** [get_session] on the success paths *)

Lemma get_session_live_pool {A : Type} (w : World) (n : string)
      (body : ClientSession -> PyExn + A) (p : MCPConnectionPool)
      (c : SharedConnection) (s : ClientSession) :
  running p = true -> is_Some (configs p !! n) ->
  connections p !! n = Some c -> connected c = true -> session c = Some s ->
  (0 <= ref_count c)%Z ->
  get_session w n body p = (p, body s).
Proof.
  intros Hrun [cfg Hcfg] Hc Hcon Hs Hnn.
  assert (Hlive : is_connected c = true).
  { unfold is_connected. rewrite Hcon, Hs. reflexivity. }
  unfold get_session, bind, get_pool. simpl. rewrite Hrun, Hcfg, Hc, Hlive. simpl.
  unfold ret, acquire, put_pool, raise. simpl. rewrite Hs. simpl.
  unfold set_connections. simpl. rewrite insert_insert_eq.
  replace (Z.max 0 (ref_count c + 1 - 1)) with (ref_count c) by lia.
  destruct c as [cc cs cr cn]. simpl in *. subst cs. rewrite insert_id by exact Hc.
  destruct p. destruct (body s); reflexivity.
Qed.

(** X2: when [n] already has a live connection (connected, with a session
    [s]) whose count is not negative, [get_session] uses it without
    creating anything: it returns what the code run with [s] returns or
    raises, and the pool is left exactly as it was, since the reference it
    takes is released on both paths. *)
Theorem get_session_reuses_live {A : Type} (w : World) (n : string)
        (body : ClientSession -> PyExn + A) (p : MCPConnectionPool)
        (c : SharedConnection) (s : ClientSession) :
  running p = true -> is_Some (configs p !! n) ->
  connections p !! n = Some c -> connected c = true -> session c = Some s ->
  (0 <= ref_count c)%Z ->
  get_session w n body p = (p, body s).
Proof.
  apply get_session_live_pool.
Qed.

Lemma get_session_reuses_live_witness :
  get_session ok_world "echo" (list_tools_body ok_world "echo") idle_pool =
    (idle_pool, inr ["echo_tool"]).
Proof.
  apply (get_session_reuses_live ok_world "echo" (list_tools_body ok_world "echo") idle_pool
           (mkConn echo_cfg (Some 7%nat) 0 true) 7%nat).
  - reflexivity.
  - eexists; reflexivity.
  - reflexivity.
  - reflexivity.
  - reflexivity.
  - simpl. lia.
Defined.


(** X3: when [n] is a configured stdio server with no live connection and
    the server starts, [get_session] stores a fresh live connection for [n]
    with count 0 once the code run with the new session is done, records
    the transport and session context managers under [n] and
    [n_session], and returns what that code returns or raises. *)
Theorem get_session_creates_fresh {A : Type} (w : World) (n : string)
        (body : ClientSession -> PyExn + A) (p : MCPConnectionPool)
        (cfg : MCPServerConfig) (s : ClientSession) :
  running p = true -> configs p !! n = Some cfg -> transport cfg = STDIO ->
  (forall c, connections p !! n = Some c -> is_connected c = false) ->
  w_create w n = Connects s ->
  get_session w n body p =
    (mkPool (<[n := mkConn cfg (Some s) 0 true]> (connections p)) (configs p) true
            (<[session_key n := SessionCM n]> (<[n := TransportCM n]> (context_managers p))),
     body s).
Proof.
  intros Hrun Hcfg Ht Hdead Hw.
  assert (Hcr : create_and_store w n p =
    (mkPool (<[n := mkConn cfg (Some s) 0 true]> (connections p)) (configs p) (running p)
            (<[session_key n := SessionCM n]> (<[n := TransportCM n]> (context_managers p))),
     inr (mkConn cfg (Some s) 0 true))).
  { unfold create_and_store, _create_connection, bind, get_pool, put_pool, ret. simpl.
    rewrite Hcfg, Ht, Hw. reflexivity. }
  assert (Hsel : (match connections p !! n with
                  | Some c => if is_connected c then ret c else create_and_store w n
                  | None => create_and_store w n
                  end) = create_and_store w n).
  { destruct (connections p !! n) as [c|] eqn:Ec; [|reflexivity].
    rewrite (Hdead c eq_refl). reflexivity. }
  unfold get_session, bind at 1, get_pool. simpl. rewrite Hrun, Hcfg. simpl.
  rewrite Hsel. unfold bind at 1. rewrite Hcr.
  unfold bind, get_pool, acquire, put_pool, ret, raise, release, set_connections. simpl.
  rewrite !insert_insert_eq, Hrun.
  destruct (body s); reflexivity.
Qed.

Lemma get_session_creates_fresh_witness :
  get_session ok_world "echo" (list_tools_body ok_world "echo") echo_pool =
    (mkPool {[ "echo" := mkConn echo_cfg (Some 7%nat) 0 true ]} {[ "echo" := echo_cfg ]} true
            (<[ "echo_session" := SessionCM "echo" ]> (<[ "echo" := TransportCM "echo" ]> ∅)),
     inr ["echo_tool"]).
Proof.
  apply (get_session_creates_fresh ok_world "echo" (list_tools_body ok_world "echo") echo_pool
           echo_cfg 7%nat).
  - reflexivity.
  - reflexivity.
  - reflexivity.
  - intros c Hc. vm_compute in Hc. discriminate.
  - reflexivity.
Defined.


(** X4: when [n] is a configured stdio server with no live connection and
    the transport cannot be spawned, [get_session] raises that error and
    the pool is left exactly as it was; when the transport starts but
    entering the session fails, it raises that error and the only change is
    the transport context manager recorded under [n]. *)
Theorem get_session_early_failures {A : Type} (w : World) (n : string)
        (body : ClientSession -> PyExn + A) (p : MCPConnectionPool) (cfg : MCPServerConfig) :
  running p = true -> configs p !! n = Some cfg -> transport cfg = STDIO ->
  (forall c, connections p !! n = Some c -> is_connected c = false) ->
  (w_create w n = SpawnFails -> get_session w n body p = (p, inl (SpawnError n))) /\
  (w_create w n = SessionEnterFails ->
     get_session w n body p =
       (set_cms (<[n := TransportCM n]> (context_managers p)) p, inl (SessionError n))).
Proof.
  intros Hrun Hcfg Ht Hdead.
  assert (Hsel : (match connections p !! n with
                  | Some c => if is_connected c then ret c else create_and_store w n
                  | None => create_and_store w n
                  end) = create_and_store w n).
  { destruct (connections p !! n) as [c|] eqn:Ec; [|reflexivity].
    rewrite (Hdead c eq_refl). reflexivity. }
  split; intros Hw;
    unfold get_session, bind at 1, get_pool; simpl; rewrite Hrun, Hcfg; simpl;
    rewrite Hsel; unfold create_and_store, _create_connection, bind, get_pool, put_pool, raise;
    simpl; rewrite Hcfg, Ht, Hw; reflexivity.
Qed.

Definition spawn_fail_world : World :=
  mkWorld (fun _ => SpawnFails) (fun _ => Some ["echo_tool"]) (fun _ _ => Some "ok").
Definition session_fail_world : World :=
  mkWorld (fun _ => SessionEnterFails) (fun _ => Some ["echo_tool"]) (fun _ _ => Some "ok").

Lemma get_session_early_failures_witness :
  get_session spawn_fail_world "echo" (list_tools_body spawn_fail_world "echo") echo_pool =
    (echo_pool, inl (SpawnError "echo")) /\
  get_session session_fail_world "echo" (list_tools_body session_fail_world "echo") echo_pool =
    (set_cms {[ "echo" := TransportCM "echo" ]} echo_pool, inl (SessionError "echo")).
Proof.
  assert (Hd : forall c, connections echo_pool !! "echo" = Some c -> is_connected c = false)
    by (intros c Hc; vm_compute in Hc; discriminate).
  split.
  - apply (proj1 (get_session_early_failures spawn_fail_world "echo"
                    (list_tools_body spawn_fail_world "echo") echo_pool echo_cfg
                    eq_refl eq_refl eq_refl Hd)). reflexivity.
  - apply (proj2 (get_session_early_failures session_fail_world "echo"
                    (list_tools_body session_fail_world "echo") echo_pool echo_cfg
                    eq_refl eq_refl eq_refl Hd)). reflexivity.
Defined.


(** ** Connections are idle between sequential operations *)

Lemma create_conn_ok (w : World) (n : string) (p : MCPConnectionPool) (c : SharedConnection) :
  (_create_connection w n p).2 = inr c -> ref_count c = 0%Z /\ is_connected c = true.
Proof.
  unfold _create_connection, bind, get_pool, raise, put_pool, ret. simpl.
  destruct (configs p !! n) as [cfg|]; simpl; [|discriminate].
  destruct (transport cfg); simpl; try discriminate.
  destruct (w_create w n); simpl; try discriminate.
  intros H. injection H as <-. split; reflexivity.
Qed.

Lemma is_connected_session (c : SharedConnection) :
  is_connected c = true -> connected c = true /\ exists s, session c = Some s.
Proof.
  unfold is_connected. intros H. apply andb_true_iff in H as [H1 H2].
  apply bool_decide_eq_true_1 in H2 as [s Hs]. eauto.
Qed.

Lemma get_session_idle {A : Type} (w : World) (n : string) (body : ClientSession -> PyExn + A)
      (p : MCPConnectionPool) :
  pool_idle p -> pool_idle (get_session w n body p).1.
Proof.
  intros Hidle.
  destruct (running p) eqn:Hrun;
    [|unfold get_session, bind, get_pool, raise; simpl; rewrite Hrun; exact Hidle].
  destruct (configs p !! n) as [cfg|] eqn:Hcfg;
    [|unfold get_session, bind, get_pool, raise; simpl; rewrite Hrun, Hcfg; exact Hidle].
  destruct (connections p !! n) as [c|] eqn:Ec.
  - destruct (Hidle n c Ec) as [Hr Hl].
    destruct (is_connected_session c Hl) as [Hcon [s Hs]].
    rewrite (get_session_live_pool w n body p c s Hrun ltac:(eexists; exact Hcfg) Ec Hcon Hs ltac:(lia)).
    exact Hidle.
  - pose proof (create_conn_frame w n p) as (F1 & _ & _).
    pose proof (create_conn_ok w n p) as Hok.
    unfold get_session, bind, get_pool. simpl. rewrite Hrun, Hcfg, Ec. simpl.
    unfold create_and_store, bind, get_pool, put_pool, ret, raise. simpl.
    destruct (_create_connection w n p) as [p1 [e|c0]]; simpl in *;
      [unfold pool_idle; rewrite F1; exact Hidle|].
    destruct (Hok c0 eq_refl) as [Hr0 Hl0].
    destruct (is_connected_session c0 Hl0) as [Hcon [s Hs]].
    unfold acquire. rewrite Hs. simpl.
    assert (Hfin : pool_idle (set_connections
       (<[n := (release (mkConn (config c0) (Some s) (ref_count c0 + 1) (connected c0))).1]>
          (connections p1)) p1)).
    { intros k c' Hk. simpl in Hk. destruct (decide (k = n)) as [->|Hne].
      - rewrite lookup_insert_eq in Hk. injection Hk as <-. simpl. split; [lia|].
        unfold is_connected. simpl. rewrite Hcon. reflexivity.
      - rewrite lookup_insert_ne in Hk by congruence. rewrite F1 in Hk. exact (Hidle k c' Hk). }
    unfold set_connections in *. simpl in *. rewrite !insert_insert_eq.
    destruct (body s); exact Hfin.
Qed.

Lemma get_all_tools_loop_idle (w : World) (ns : list string) :
  forall acc p, pool_idle p -> pool_idle (get_all_tools_loop w ns acc p).1.
Proof.
  induction ns as [|n ns IH]; intros acc p H; simpl; [exact H|].
  unfold bind at 1. rewrite try_list_tools. apply IH. apply get_session_idle. exact H.
Qed.

(** One client running pool operations one after another, each started
    after the previous one returned or raised. *)
Inductive PoolOp :=
| OpAddServer (cfg : MCPServerConfig)
| OpRemoveServer (n : string)
| OpListTools (n : string)
| OpCallTool (server tool : string)
| OpGetAllTools
| OpStart
| OpStop.

Definition run_pool_op (w : World) (op : PoolOp) (p : MCPConnectionPool) : MCPConnectionPool :=
  match op with
  | OpAddServer cfg => (add_server cfg p).1
  | OpRemoveServer n => (remove_server n p).1
  | OpListTools n => (get_session w n (list_tools_body w n) p).1
  | OpCallTool s t => (call_tool w s t p).1
  | OpGetAllTools => (get_all_tools w p).1
  | OpStart => (start p).1
  | OpStop => (stop p).1
  end.

Definition run_pool_ops (w : World) (ops : list PoolOp) (p : MCPConnectionPool) : MCPConnectionPool :=
  foldl (fun q op => run_pool_op w op q) p ops.

Lemma run_pool_op_idle (w : World) (op : PoolOp) (p : MCPConnectionPool) :
  pool_idle p -> pool_idle (run_pool_op w op p).
Proof.
  intros H. destruct op as [cfg|n|n|s t| | |]; simpl.
  - unfold add_server, bind, get_pool, raise, put_pool. simpl.
    destruct (configs p !! name cfg); exact H.
  - unfold remove_server, bind, get_pool, raise, put_pool. simpl.
    assert (Hdel : pool_idle (mkPool (delete n (connections p)) (delete n (configs p))
                                     (running p) (context_managers p))).
    { intros k c Hk. simpl in Hk. apply lookup_delete_Some in Hk as [_ Hk]. exact (H k c Hk). }
    destruct (configs p !! n); [|exact H].
    destruct (connections p !! n) as [c|]; [|exact Hdel].
    destruct (bool_decide (0 < ref_count c)%Z); [exact H|exact Hdel].
  - apply get_session_idle. exact H.
  - apply get_session_idle. exact H.
  - unfold get_all_tools, bind at 1, get_pool. simpl. apply get_all_tools_loop_idle. exact H.
  - exact H.
  - unfold stop, bind, get_pool, put_pool. simpl. intros k c Hk.
    rewrite close_fold_conns in Hk. destruct (decide _) as [|Hn]; [discriminate|].
    simpl in Hk. exfalso. apply Hn. apply elem_of_map_keys. rewrite Hk. eexists; reflexivity.
Qed.

Lemma run_pool_ops_idle (w : World) (ops : list PoolOp) (p : MCPConnectionPool) :
  pool_idle p -> pool_idle (run_pool_ops w ops p).
Proof.
  unfold run_pool_ops. revert p. induction ops as [|op ops IH]; intros p H; simpl; [exact H|].
  apply IH, run_pool_op_idle, H.
Qed.

Lemma new_pool_idle : pool_idle new_pool.
Proof. intros k c Hk. simpl in Hk. rewrite lookup_empty in Hk. discriminate. Qed.

(** X5: run one at a time, the pool operations keep every stored
    connection live with a reference count of 0 between operations: a
    [get_session] scope always gives back the reference it takes. *)
Theorem seq_ops_keep_connections_idle (w : World) (ops : list PoolOp) (p : MCPConnectionPool) :
  pool_idle p -> pool_idle (run_pool_ops w ops p).
Proof. apply run_pool_ops_idle. Qed.

Definition echo_session_ops : list PoolOp :=
  [OpAddServer echo_cfg; OpStart; OpListTools "echo"; OpCallTool "echo" "echo_tool"; OpGetAllTools].

Lemma seq_ops_keep_connections_idle_witness :
  pool_idle new_pool /\ pool_idle (run_pool_ops ok_world echo_session_ops new_pool).
Proof.
  split; [exact new_pool_idle|].
  apply (seq_ops_keep_connections_idle ok_world echo_session_ops new_pool). exact new_pool_idle.
Defined.

(** X6: starting from a new pool, whatever sequence of operations one
    client has run, [remove_server] of a configured name succeeds: it never
    reports active connections, and it drops the name's config and
    connection while keeping its context managers. *)
Theorem remove_server_after_sequential_use (w : World) (ops : list PoolOp) (n : string)
        (cfg : MCPServerConfig) :
  configs (run_pool_ops w ops new_pool) !! n = Some cfg ->
  remove_server n (run_pool_ops w ops new_pool) =
    (mkPool (delete n (connections (run_pool_ops w ops new_pool)))
            (delete n (configs (run_pool_ops w ops new_pool)))
            (running (run_pool_ops w ops new_pool))
            (context_managers (run_pool_ops w ops new_pool)), inr tt).
Proof.
  pose proof (run_pool_ops_idle w ops new_pool new_pool_idle) as Hidle.
  set (p := run_pool_ops w ops new_pool) in *. intros Hcfg.
  unfold remove_server, bind, get_pool, put_pool. simpl. rewrite Hcfg.
  destruct (connections p !! n) as [c|] eqn:Ec; [|reflexivity].
  destruct (Hidle n c Ec) as [Hr _]. rewrite bool_decide_eq_false_2 by lia. reflexivity.
Qed.

Lemma remove_server_after_sequential_use_witness :
  configs (run_pool_ops ok_world echo_session_ops new_pool) !! "echo" = Some echo_cfg /\
  (remove_server "echo" (run_pool_ops ok_world echo_session_ops new_pool)).2 = inr tt.
Proof.
  assert (H : configs (run_pool_ops ok_world echo_session_ops new_pool) !! "echo" = Some echo_cfg)
    by (vm_compute; reflexivity).
  split; [exact H|].
  rewrite (remove_server_after_sequential_use ok_world echo_session_ops "echo" echo_cfg H).
  reflexivity.
Defined.

(** ** [get_all_tools] on a pool that is not running *)

Lemma get_all_tools_loop_stopped (w : World) (ns : list string) :
  forall acc p, running p = false -> exists acc', get_all_tools_loop w ns acc p = (p, inr acc').
Proof.
  induction ns as [|n ns IH]; intros acc p H; simpl; [eexists; reflexivity|].
  unfold bind at 1, try_except, get_session, bind, get_pool, raise. simpl. rewrite H. simpl.
  unfold ret. apply IH. exact H.
Qed.

(** X7: on a pool that is not running, [get_all_tools] does not raise: it
    maps every configured name to [] (and no other name), and it changes
    nothing in the pool; no connection is attempted. *)
Theorem get_all_tools_when_stopped (w : World) (p : MCPConnectionPool) :
  running p = false ->
  exists tools, get_all_tools w p = (p, inr tools) /\
    forall n, tools !! n = (fun _ => []) <$> configs p !! n.
Proof.
  intros Hrun.
  destruct (get_all_tools_loop_spec w (map_to_list (configs p)).*1 ∅ p (NoDup_fst_map_to_list _))
    as (p' & tools & E & _ & _ & _ & Ht).
  destruct (get_all_tools_loop_stopped w (map_to_list (configs p)).*1 ∅ p Hrun) as [acc' E'].
  rewrite E in E'. injection E' as -> ->.
  exists acc'. split; [unfold get_all_tools, bind, get_pool; simpl; exact E|].
  intros n. rewrite Ht. destruct (decide _) as [Hin|Hin].
  - apply elem_of_map_keys in Hin as [cfg Hcfg]. rewrite Hcfg. simpl.
    unfold tools_outcome, get_session, bind, get_pool, raise. simpl. rewrite Hrun. reflexivity.
  - rewrite lookup_empty. destruct (configs p !! n) eqn:Hcfg; [|reflexivity].
    exfalso. apply Hin. apply elem_of_map_keys. rewrite Hcfg. eexists; reflexivity.
Qed.

Definition stopped_echo_pool : MCPConnectionPool :=
  mkPool ∅ {[ "echo" := echo_cfg ]} false ∅.

Lemma get_all_tools_when_stopped_witness :
  exists tools, get_all_tools ok_world stopped_echo_pool = (stopped_echo_pool, inr tools) /\
    tools !! "echo" = Some [] /\ tools !! "ghost" = None.
Proof.
  destruct (get_all_tools_when_stopped ok_world stopped_echo_pool eq_refl) as [tools [E H]].
  exists tools. split; [exact E|]. rewrite !H. split; reflexivity.
Defined.

(** ** MCPServerWrapper, MCPServerRegistry, AgentManager *)

(** X8: [register] on a wrapper already registered does nothing; on one
    that is not, it raises "already configured" and leaves the pool and the
    flag unchanged when the pool already has the name, and otherwise adds
    the config to the pool and returns the wrapper marked registered. *)
Theorem register_spec (wr : MCPServerWrapper) (p : MCPConnectionPool) :
  (wr_registered wr = true -> register wr p = (p, inr wr)) /\
  (wr_registered wr = false -> is_Some (configs p !! name (wr_config wr)) ->
     register wr p = (p, inl (AlreadyConfigured (name (wr_config wr))))) /\
  (wr_registered wr = false -> configs p !! name (wr_config wr) = None ->
     register wr p =
       (set_configs (<[name (wr_config wr) := wr_config wr]> (configs p)) p,
        inr (mkWrapper (wr_config wr) true))).
Proof.
  unfold register. split; [|split].
  - intros ->. reflexivity.
  - intros -> [c Hc]. unfold add_server, bind, get_pool, raise. simpl. rewrite Hc. reflexivity.
  - intros -> Hc. unfold add_server, bind, get_pool, put_pool, ret. simpl. rewrite Hc. reflexivity.
Qed.

Lemma register_spec_witness :
  register (mkWrapper echo_cfg true) echo_pool = (echo_pool, inr (mkWrapper echo_cfg true)) /\
  register (mkWrapper echo_cfg2 false) echo_pool = (echo_pool, inl (AlreadyConfigured "echo")) /\
  register (mkWrapper sse_cfg false) echo_pool =
    (set_configs (<[ "remote" := sse_cfg ]> (configs echo_pool)) echo_pool,
     inr (mkWrapper sse_cfg true)).
Proof.
  split; [|split].
  - apply (proj1 (register_spec (mkWrapper echo_cfg true) echo_pool)). reflexivity.
  - apply (proj1 (proj2 (register_spec (mkWrapper echo_cfg2 false) echo_pool)));
      [reflexivity|eexists; reflexivity].
  - apply (proj2 (proj2 (register_spec (mkWrapper sse_cfg false) echo_pool))); reflexivity.
Defined.

(** X9: [unregister] never raises and always returns the wrapper marked
    not registered: on a registered wrapper the pool ends as
    [remove_server] leaves it, which is unchanged when [remove_server]
    raises (name not found or active connections); on an unregistered one
    the pool is untouched. *)
Theorem unregister_never_raises (wr : MCPServerWrapper) (p : MCPConnectionPool) :
  (unregister wr p).2 = inr (mkWrapper (wr_config wr) false) /\
  (unregister wr p).1 =
    (if wr_registered wr then (remove_server (name (wr_config wr)) p).1 else p) /\
  (forall e, (remove_server (name (wr_config wr)) p).2 = inl e ->
     (remove_server (name (wr_config wr)) p).1 = p).
Proof.
  destruct wr as [cfg [|]]; unfold unregister; simpl.
  - unfold try_except, bind, remove_server, bind, get_pool, raise, put_pool, ret. simpl.
    destruct (configs p !! name cfg); simpl; [|auto].
    destruct (connections p !! name cfg) as [c|]; simpl; [|auto; split; [auto|split; [auto|discriminate]]].
    destruct (bool_decide (0 < ref_count c)%Z); simpl; [auto|].
    split; [auto|split; [auto|discriminate]].
  - split; [reflexivity|]. split; [reflexivity|].
    intros e. unfold remove_server, bind, get_pool, raise, put_pool. simpl.
    destruct (configs p !! name cfg); simpl; [|auto].
    destruct (connections p !! name cfg) as [c|]; simpl; [|discriminate].
    destruct (bool_decide (0 < ref_count c)%Z); simpl; [auto|discriminate].
Qed.

(** X10: [MCPServerRegistry.remove] of a name the registry does not hold
    does nothing, even when the pool has that name configured; for a
    registered server that still has an active connection it does not
    raise: the registry forgets the server while the pool keeps its config
    and its connection unchanged. *)
Theorem registry_remove_edge_cases (n : string) (r : MCPServerRegistry) (p : MCPConnectionPool) :
  (reg_servers r !! n = None -> registry_remove n r p = (p, inr r)) /\
  (forall wr c, reg_servers r !! n = Some wr -> wr_registered wr = true ->
     name (wr_config wr) = n -> is_Some (configs p !! n) ->
     connections p !! n = Some c -> (0 < ref_count c)%Z ->
     registry_remove n r p = (p, inr (mkRegistry (delete n (reg_servers r))))).
Proof.
  split.
  - intros H. unfold registry_remove. rewrite H. reflexivity.
  - intros wr c Hwr Hreg Hn [cfg Hcfg] Hc Hpos. unfold registry_remove. rewrite Hwr.
    unfold unregister. rewrite Hreg, Hn. simpl.
    unfold bind, try_except, remove_server, bind, get_pool, raise, ret. simpl.
    rewrite Hcfg, Hc, bool_decide_eq_true_2 by exact Hpos. reflexivity.
Qed.

Definition echo_registry : MCPServerRegistry :=
  mkRegistry {[ "echo" := mkWrapper echo_cfg true ]}.

Lemma registry_remove_edge_cases_witness :
  registry_remove "echo" (mkRegistry ∅) busy_pool = (busy_pool, inr (mkRegistry ∅)) /\
  registry_remove "echo" echo_registry busy_pool = (busy_pool, inr (mkRegistry ∅)).
Proof.
  split.
  - apply (proj1 (registry_remove_edge_cases "echo" (mkRegistry ∅) busy_pool)). reflexivity.
  - rewrite (proj2 (registry_remove_edge_cases "echo" echo_registry busy_pool)
               (mkWrapper echo_cfg true) (mkConn echo_cfg (Some 7%nat) 2 true));
      [|reflexivity|reflexivity|reflexivity|eexists; reflexivity|reflexivity|simpl; lia].
    vm_compute. reflexivity.
Defined.

(** X11: [MCPServerRegistry.add] with a name the pool already has raises
    "already configured" and changes neither the pool nor the registry;
    with a fresh name it adds the config to the pool, and [get] of that
    name then returns the new wrapper, registered, with that config. *)
Theorem registry_add_get (cfg : MCPServerConfig) (r : MCPServerRegistry) (p : MCPConnectionPool) :
  (is_Some (configs p !! name cfg) ->
     registry_add cfg r p = (p, inl (AlreadyConfigured (name cfg)))) /\
  (configs p !! name cfg = None ->
     exists r', registry_add cfg r p =
                  (set_configs (<[name cfg := cfg]> (configs p)) p, inr (r', mkWrapper cfg true)) /\
                registry_get (name cfg) r' = inr (mkWrapper cfg true) /\
                (forall k, k <> name cfg -> registry_get k r' = registry_get k r)).
Proof.
  split.
  - intros [c Hc]. unfold registry_add, register, add_server, bind, get_pool, raise. simpl.
    rewrite Hc. reflexivity.
  - intros Hc. eexists. split.
    + unfold registry_add, register, add_server, bind, get_pool, put_pool, ret. simpl.
      rewrite Hc. reflexivity.
    + unfold registry_get. simpl. split; [rewrite lookup_insert_eq; reflexivity|].
      intros k Hk. rewrite lookup_insert_ne by congruence. reflexivity.
Qed.

Lemma registry_add_get_witness :
  registry_add echo_cfg2 (mkRegistry ∅) echo_pool = (echo_pool, inl (AlreadyConfigured "echo")) /\
  exists r', registry_add sse_cfg echo_registry echo_pool =
               (set_configs (<[ "remote" := sse_cfg ]> (configs echo_pool)) echo_pool,
                inr (r', mkWrapper sse_cfg true)) /\
             registry_get "remote" r' = inr (mkWrapper sse_cfg true).
Proof.
  split.
  - apply (proj1 (registry_add_get echo_cfg2 (mkRegistry ∅) echo_pool)). eexists; reflexivity.
  - destruct (proj2 (registry_add_get sse_cfg echo_registry echo_pool) eq_refl)
      as (r' & E & G & _).
    exists r'. split; [exact E|exact G].
Defined.

(** X12: adding a server under a name that neither the registry nor the
    pool knows (no config, no connection) and then removing it through the
    registry gives back the same registry and the same pool. *)
Theorem registry_add_remove_roundtrip (cfg : MCPServerConfig) (r : MCPServerRegistry)
        (p : MCPConnectionPool) :
  reg_servers r !! name cfg = None -> configs p !! name cfg = None ->
  connections p !! name cfg = None ->
  exists p1 r1 wr, registry_add cfg r p = (p1, inr (r1, wr)) /\
    registry_remove (name cfg) r1 p1 = (p, inr r).
Proof.
  intros Hr Hc Hn. do 3 eexists. split.
  - unfold registry_add, register, add_server, bind, get_pool, put_pool, ret. simpl.
    rewrite Hc. reflexivity.
  - unfold registry_remove. simpl. rewrite lookup_insert_eq.
    unfold unregister. simpl.
    unfold bind, try_except, remove_server, bind, get_pool, put_pool, ret. simpl.
    rewrite lookup_insert_eq, Hn. simpl.
    rewrite delete_insert_id by exact Hc. rewrite delete_id by exact Hn.
    rewrite delete_insert_id by exact Hr. destruct p, r; reflexivity.
Qed.

Lemma registry_add_remove_roundtrip_witness :
  exists p1 r1 wr, registry_add sse_cfg echo_registry echo_pool = (p1, inr (r1, wr)) /\
    registry_remove "remote" r1 p1 = (echo_pool, inr echo_registry).
Proof.
  apply (registry_add_remove_roundtrip sse_cfg echo_registry echo_pool); reflexivity.
Defined.



(** ** Concurrent callers when the transport cannot be spawned *)

Lemma count_tasks_le_length (f g : gs_pc -> bool) (l : list Task) :
  (forall pc, f pc = true -> g pc = false) -> count_tasks f l + count_tasks g l <= length l.
Proof.
  intros Hfg. induction l as [|t l IH]; simpl; [lia|].
  destruct (f (t_pc t)) eqn:Ef; [rewrite (Hfg _ Ef)|destruct (g (t_pc t))]; lia.
Qed.

Section SpawnFailure.
Variables (w : World) (p : MCPConnectionPool) (n : string) (cfg : MCPServerConfig) (N : nat).
Hypothesis Hrun : running p = true.
Hypothesis Hcfg : configs p !! n = Some cfg.
Hypothesis Hstdio : transport cfg = STDIO.
Hypothesis Hspawn : w_create w n = SpawnFails.
Hypothesis Hdead : forall c, connections p !! n = Some c -> is_connected c = false.

Lemma spawnfail_inv_step (s s' : Sys) :
  spawnfail_inv p n cfg N s -> task_step w s s' -> spawnfail_inv p n cfg N s'.
Proof.
  intros Hinv Hst. inversion Hst as [s0 i t g' pc' Hi Hstep]; subst s0 s'.
  destruct Hinv as (Hlen & Hall & Hpool & Hle & Hlock & Hsp & Hin).
  pose proof (Forall_lookup_1 _ _ _ _ Hall Hi) as [Hname Hpc].
  destruct t as [tn tpc]; simpl in Hname, Hpc, Hstep |- *; subst tn.
  set (l := s_tasks s) in *. set (g := s_glob s) in *.
  assert (Hcre := count_tasks_insert is_creating l i (mkTask n tpc) (mkTask n pc') Hi).
  assert (Hfl := count_tasks_insert is_failed l i (mkTask n tpc) (mkTask n pc') Hi).
  simpl in Hcre, Hfl.
  assert (Hgen : pc_spawnfail_ok n cfg pc' ->
            length (<[i := mkTask n pc']> l) = N /\
            Forall (fun t => t_name t = n /\ pc_spawnfail_ok n cfg (t_pc t)) (<[i := mkTask n pc']> l)).
  { intros Hok. split; [rewrite length_insert; exact Hlen|].
    apply Forall_insert; [exact Hall|split; [reflexivity|exact Hok]]. }
  destruct tpc as [| |c|s1|e]; simpl in Hstep.
  - (* GS_Start *)
    rewrite Hpool, Hrun, Hcfg in Hstep. simpl in Hstep. injection Hstep as <- <-.
    simpl in Hcre, Hfl. destruct (Hgen I) as [H1 H2].
    split; [exact H1|]. split; [exact H2|]. split; [exact Hpool|].
    cbn [s_tasks s_glob]. repeat split; try lia. rewrite Hlock. f_equal. apply bool_decide_ext. lia.
  - (* GS_WaitLock *)
    destruct (g_locked g) eqn:Hl; [discriminate|].
    symmetry in Hlock. apply bool_decide_eq_false_1 in Hlock.
    assert (Hsc : Some (start_create n g) = Some (g', pc')).
    { rewrite <- Hstep. rewrite Hpool.
      destruct (connections p !! n) as [c|]; [rewrite (Hdead c eq_refl)|]; reflexivity. }
    clear Hstep. injection Hsc as Hstep. unfold start_create in Hstep.
    rewrite Hpool, Hcfg, Hstdio in Hstep. injection Hstep as <- <-. simpl in Hcre, Hfl.
    destruct (Hgen eq_refl) as [H1 H2].
    split; [exact H1|]. split; [exact H2|]. split; [reflexivity|].
    simpl. repeat split; try lia.
    rewrite bool_decide_eq_true_2 by lia. reflexivity.
  - (* GS_Creating *)
    simpl in Hpc. subst c.
    assert (Hpos := count_tasks_pos is_creating l i (mkTask n (GS_Creating cfg)) Hi eq_refl).
    unfold finish_create in Hstep. rewrite Hspawn in Hstep. simpl in Hstep.
    injection Hstep as <- <-. simpl in Hcre, Hfl.
    destruct (Hgen eq_refl) as [H1 H2].
    split; [exact H1|]. split; [exact H2|]. split; [exact Hpool|].
    simpl. repeat split; try lia.
    rewrite bool_decide_eq_false_2 by lia. reflexivity.
  - contradiction.
  - discriminate.
Qed.

Lemma spawnfail_inv_init : spawnfail_inv p n cfg N (callers p n N).
Proof.
  unfold spawnfail_inv, callers. cbn [s_tasks s_glob g_pool g_spawns g_locked g_inits].
  split; [apply length_replicate|].
  split; [apply Forall_replicate; split; [reflexivity|exact I]|].
  split; [reflexivity|].
  rewrite !count_tasks_replicate by reflexivity. repeat split; lia.
Qed.

Lemma spawnfail_inv_reach (s : Sys) :
  rtc (task_step w) (callers p n N) s -> spawnfail_inv p n cfg N s.
Proof.
  intros Hr. pose proof spawnfail_inv_init as H0. revert H0.
  induction Hr as [x|x y z Hxy Hyz IH]; intros H0; [exact H0|].
  apply IH. eapply spawnfail_inv_step; eassumption.
Qed.

Lemma spawnfail_inv_progress (s : Sys) (i : nat) (t : Task) :
  spawnfail_inv p n cfg N s -> s_tasks s !! i = Some t -> is_failed (t_pc t) = false ->
  exists s', task_step w s s'.
Proof.
  intros (Hlen & Hall & Hpool & Hle & Hlock & Hsp & Hin) Hi Hnf.
  pose proof (Forall_lookup_1 _ _ _ _ Hall Hi) as [Hname Hpc].
  destruct t as [tn tpc]; simpl in Hname, Hpc, Hnf; subst tn.
  destruct tpc as [| |c|s1|e]; try discriminate; try contradiction.
  - apply (step_of_gs_step w s i _ Hi). simpl. rewrite Hpool, Hrun, Hcfg. discriminate.
  - destruct (g_locked (s_glob s)) eqn:Hl.
    + symmetry in Hlock. apply bool_decide_eq_true_1 in Hlock.
      destruct (count_tasks_exists is_creating (s_tasks s)) as (j & t' & Hj & Hc); [lia|].
      apply (step_of_gs_step w s j t' Hj).
      destruct (t_pc t'); discriminate.
    + apply (step_of_gs_step w s i _ Hi). simpl. rewrite Hl.
      destruct (connections (g_pool (s_glob s)) !! n) as [c|]; [destruct (is_connected c)|];
        discriminate.
  - apply (step_of_gs_step w s i _ Hi). simpl. discriminate.
Qed.

Lemma spawnfail_inv_terminal (s : Sys) :
  spawnfail_inv p n cfg N s -> terminal w s ->
  g_spawns (s_glob s) = N /\ g_locked (s_glob s) = false /\
  Forall (fun t => t_pc t = GS_Failed (SpawnError n)) (s_tasks s).
Proof.
  intros Hinv Hterm.
  assert (Hf : forall i t, s_tasks s !! i = Some t -> is_failed (t_pc t) = true).
  { intros i t Hi. destruct (is_failed (t_pc t)) eqn:E; [reflexivity|].
    exfalso. apply Hterm. eapply spawnfail_inv_progress; eassumption. }
  destruct Hinv as (Hlen & Hall & Hpool & Hle & Hlock & Hsp & Hin).
  assert (Hc0 : count_tasks is_creating (s_tasks s) = 0).
  { destruct (decide (count_tasks is_creating (s_tasks s) = 0)) as [|Hne]; [assumption|].
    destruct (count_tasks_exists is_creating (s_tasks s)) as (j & t' & Hj & Hc); [lia|].
    specialize (Hf j t' Hj). destruct (t_pc t'); discriminate. }
  pose proof (count_tasks_all is_failed (s_tasks s) Hf) as Hcnt.
  split; [lia|]. split; [rewrite Hlock; apply bool_decide_eq_false_2; lia|].
  apply Forall_lookup_2. intros i t Hi.
  pose proof (Forall_lookup_1 _ _ _ _ Hall Hi) as [_ Hpc]. specialize (Hf i t Hi).
  destruct (t_pc t); try discriminate. simpl in Hpc. subst. reflexivity.
Qed.

End SpawnFailure.

(** X14: [N] tasks call [get_session(n)] concurrently on a running pool
    where [n] is configured with a stdio transport and has no live
    connection, and the transport cannot be spawned. Under every
    interleaving the runs are finite, the pool is never changed and no
    session is initialized; once no task can move, each of the [N] tasks
    has made its own spawn attempt under the lock (the failure is not
    remembered), all of them have raised the spawn error, and the lock is
    free. *)
Theorem concurrent_spawn_failure_each_retries (w : World) (p : MCPConnectionPool)
    (n : string) (cfg : MCPServerConfig) (N : nat) :
  running p = true ->
  configs p !! n = Some cfg ->
  transport cfg = STDIO ->
  w_create w n = SpawnFails ->
  (forall c, connections p !! n = Some c -> is_connected c = false) ->
  Acc (fun y x => task_step w x y) (callers p n N) /\
  forall s, rtc (task_step w) (callers p n N) s ->
    g_pool (s_glob s) = p /\ g_inits (s_glob s) = 0 /\ g_spawns (s_glob s) <= N /\
    (terminal w s ->
       g_spawns (s_glob s) = N /\ g_locked (s_glob s) = false /\
       Forall (fun t => t_pc t = GS_Failed (SpawnError n)) (s_tasks s)).
Proof.
  intros Hr Hc Hst Hsp Hd. split.
  - apply (task_step_acc w (S (tasks_weight (s_tasks (callers p n N))))). lia.
  - intros s Hreach.
    pose proof (spawnfail_inv_reach w p n cfg N Hr Hc Hst Hsp Hd s Hreach) as Hinv.
    split; [|split; [|split]].
    + apply Hinv.
    + apply Hinv.
    + destruct Hinv as (Hlen & _ & _ & _ & _ & Hs & _).
      pose proof (count_tasks_le_length is_creating is_failed (s_tasks s)) as Hle.
      assert (Hdis : forall pc, is_creating pc = true -> is_failed pc = false)
        by (intros []; simpl; congruence).
      specialize (Hle Hdis). lia.
    + intros Hterm. eapply spawnfail_inv_terminal; eassumption.
Qed.

Lemma concurrent_spawn_failure_each_retries_witness :
  Acc (fun y x => task_step spawn_fail_world x y) (callers echo_pool "echo" 3) /\
  forall s, rtc (task_step spawn_fail_world) (callers echo_pool "echo" 3) s ->
    g_pool (s_glob s) = echo_pool /\ g_inits (s_glob s) = 0 /\ g_spawns (s_glob s) <= 3 /\
    (terminal spawn_fail_world s ->
       g_spawns (s_glob s) = 3 /\ g_locked (s_glob s) = false /\
       Forall (fun t => t_pc t = GS_Failed (SpawnError "echo")) (s_tasks s)).
Proof.
  apply (concurrent_spawn_failure_each_retries spawn_fail_world echo_pool "echo" echo_cfg 3).
  - reflexivity.
  - reflexivity.
  - reflexivity.
  - reflexivity.
  - intros c Hc. vm_compute in Hc. discriminate.
Defined.
